(** * The debate-crew command-line entry point (example_main.py)

    A shallow embedding of [example_main.py]: the four operations [run],
    [train], [replay] and [test], the input helpers [get_default_inputs] and
    [validate_inputs], the dispatcher [main] and the [__main__] guard.

    Python dictionaries are objects on a heap and are handed around by
    reference; [print] appends to standard output; exceptions are threaded
    through a state-and-exception monad.  The crew object built by
    [Debate().crew()] lives in [crew.py], outside this file: it is a parameter
    of the development. *)

From Stdlib Require Import ZArith Lia Ascii.
From stdpp Require Import gmap strings list fin_maps pretty.

Local Open Scope Z_scope.

(** ** Python values *)

(** The values that occur in an input mapping ([Dict[str, Any]]) or in a
    parsed argument: [None], booleans, integers, strings and the empty list
    [[]]. *)
Inductive pyval : Type :=
  | PyNone
  | PyBool (b : bool)
  | PyInt (z : Z)
  | PyStr (s : string)
  | PyEmptyList.

(** [bool(v)]: what [not v] tests. *)
Definition truthy (v : pyval) : bool :=
  match v with
  | PyNone => false
  | PyBool b => b
  | PyInt z => negb (Z.eqb z 0)
  | PyStr s => negb (String.eqb s "")
  | PyEmptyList => false
  end.

(** [str(v)], as an f-string field formats it. *)
Definition py_str (v : pyval) : string :=
  match v with
  | PyNone => "None"
  | PyBool true => "True"
  | PyBool false => "False"
  | PyInt z => pretty z
  | PyStr s => s
  | PyEmptyList => "[]"
  end.

(** [s * n] on strings. *)
Fixpoint str_repeat (s : string) (n : nat) : string :=
  match n with
  | O => ""
  | S n' => s +:+ str_repeat s n'
  end.

Definition nl : string := String (Ascii.ascii_of_nat 10) "".

(** [t] occurs in [s]. *)
Definition contains (s t : string) : Prop :=
  exists pre post : string, s = pre +:+ t +:+ post.

Abbreviation dict := (gmap string pyval).
Abbreviation loc := positive.

(** ** Exceptions *)

(** The [code] of a [SystemExit]: an integer ([True] and [False] are the
    integers 1 and 0), [None], or any other object, of which the interpreter
    uses [str(code)]. *)
Inductive ExitCode : Type :=
  | CodeInt (n : Z)
  | CodeNone
  | CodeObject (text : string).

Coercion CodeInt : Z >-> ExitCode.

(** The part of the exception hierarchy the handlers tell apart:
    [except Exception] catches [StdException] (every subclass of
    [Exception]) and nothing else. *)
Inductive ExcClass : Type :=
  | StdException
  | KeyboardInterrupt
  | SystemExit (code : ExitCode)
  | OtherBaseException.

(** An exception object: its class and [str(e)]. *)
Record Exc : Type := mkExc { exc_class : ExcClass; exc_str : string }.

Definition is_Exception (e : Exc) : bool :=
  match exc_class e with StdException => true | _ => false end.

Definition is_KeyboardInterrupt (e : Exc) : bool :=
  match exc_class e with KeyboardInterrupt => true | _ => false end.

Inductive Res (A : Type) : Type :=
  | Ok (a : A)
  | Raise (e : Exc).
Arguments Ok {A} a.
Arguments Raise {A} e.

(** ** The collaborator *)

(** [Debate().crew()] and the four operations of the object it returns.
    An operation that receives the input mapping receives the object itself:
    it sees the mapping's contents and says what they are afterwards. *)
Record Crew : Type := mkCrew {
  debate_crew : option Exc;
  crew_kickoff : dict -> dict * Res string;
  crew_train : Z -> string -> dict -> dict * Res unit;
  crew_replay : pyval -> Res string;
  crew_test : Z -> string -> dict -> dict * Res string
}.

(** A delegated call as the collaborator receives it: the arguments, the
    mapping object and its contents at the time of the call. *)
Inductive Call : Type :=
  | CallKickoff (inputs : loc) (contents : dict)
  | CallTrain (n_iterations : Z) (filename : string) (inputs : loc) (contents : dict)
  | CallReplay (task_id : pyval)
  | CallTest (n_iterations : Z) (eval_llm : string) (inputs : loc) (contents : dict).

(** What is written to a stream: a line written by [print], the usage
    message with which [argparse] reports an error, its help text, or the
    traceback the interpreter writes for an exception nobody caught. *)
Inductive Written : Type :=
  | Text (s : string)
  | ArgparseUsage
  | ArgparseHelp
  | Traceback (e : Exc).

(** ** Program state *)

(** The heap of dictionary objects, the calendar year the clock shows, what
    the dispatcher has written to the two streams, and the delegated calls
    made so far, oldest first. *)
Record State : Type := mkState {
  heap : gmap loc dict;
  year : Z;
  stdout : list Written;
  stderr : list Written;
  calls : list Call
}.

Definition set_heap (h : gmap loc dict) (s : State) : State :=
  mkState h (year s) (stdout s) (stderr s) (calls s).

Definition set_year (y : Z) (s : State) : State :=
  mkState (heap s) y (stdout s) (stderr s) (calls s).

Definition add_stdout (w : Written) (s : State) : State :=
  mkState (heap s) (year s) (stdout s ++ [w]) (stderr s) (calls s).

Definition add_stderr (w : Written) (s : State) : State :=
  mkState (heap s) (year s) (stdout s) (stderr s ++ [w]) (calls s).

Definition add_call (c : Call) (s : State) : State :=
  mkState (heap s) (year s) (stdout s) (stderr s) (calls s ++ [c]).

(** ** The monad of Python statements *)

Definition M (A : Type) : Type := State -> Res A * State.

Definition ret {A} (a : A) : M A := fun s => (Ok a, s).

Definition bind {A B} (m : M A) (k : A -> M B) : M B :=
  fun s =>
    match m s with
    | (Ok a, s') => k a s'
    | (Raise e, s') => (Raise e, s')
    end.

Definition raise {A} (e : Exc) : M A := fun s => (Raise e, s).

(** [try: body except ...]: [clauses e] is the handler of the first
    [except] clause that matches [e], if any. *)
Definition try_except {A} (body : M A) (clauses : Exc -> option (M A)) : M A :=
  fun s =>
    match body s with
    | (Ok a, s') => (Ok a, s')
    | (Raise e, s') =>
        match clauses e with
        | Some handler => handler s'
        | None => (Raise e, s')
        end
    end.

#[global] Instance M_ret : MRet M := @ret.
#[global] Instance M_bind : MBind M := fun A B k m => bind m k.

(** ** Primitive statements *)

Definition print (s : string) : M unit :=
  fun st => (Ok tt, add_stdout (Text s) st).

(** [sys.exit(n)] *)
Definition sys_exit {A} (n : Z) : M A :=
  raise (mkExc (SystemExit n) (pretty n)).

(** [datetime.now().year] *)
Definition now_year : M Z := fun s => (Ok (year s), s).

(** A dictionary display [{...}] creates a new object. *)
Definition alloc (d : dict) : M loc :=
  fun s => let l := fresh (dom (heap s)) in (Ok l, set_heap (<[l := d]> (heap s)) s).

(** [d.get(k)] *)
Definition dict_get (l : loc) (k : string) : M pyval :=
  fun s => (Ok (default PyNone ((heap s !!! l) !! k)), s).

(** [d[k]] *)
Definition getitem (l : loc) (k : string) : M pyval :=
  fun s =>
    match (heap s !!! l) !! k with
    | Some v => (Ok v, s)
    | None => (Raise (mkExc StdException ("'" +:+ k +:+ "'")), s)
    end.

(** [d[k] = v] *)
Definition setitem (l : loc) (k : string) (v : pyval) : M unit :=
  fun s => (Ok tt, set_heap (<[l := <[k := v]> (heap s !!! l)]> (heap s)) s).

(** ** [get_default_inputs] and [validate_inputs] *)

Definition default_motion : string :=
  "AI LLMs will significantly improve human productivity".

(** The dictionary display of [get_default_inputs] in the year [y]. *)
Definition default_inputs (y : Z) : dict :=
  <["motion" := PyStr default_motion]> (<["current_year" := PyStr (pretty y)]> ∅).

Definition get_default_inputs : M loc :=
  y ← now_year;
  alloc (default_inputs y).

Definition validate_inputs (inputs : loc) : M loc :=
  m ← dict_get inputs "motion";
  (if negb (truthy m)
   then d ← get_default_inputs;
        v ← getitem d "motion";
        setitem inputs "motion" v
   else ret tt);;
  y ← dict_get inputs "current_year";
  (if negb (truthy y)
   then d ← get_default_inputs;
        v ← getitem d "current_year";
        setitem inputs "current_year" v
   else ret tt);;
  ret inputs.

(** ** The four operations *)

Section Dispatcher.

Variable crew : Crew.

(** [crew_instance = Debate()] and [crew_instance.crew()]: building the crew
    object may itself raise. *)
Definition Debate_crew : M unit :=
  fun s =>
    match debate_crew crew with
    | Some e => (Raise e, s)
    | None => (Ok tt, s)
    end.

(** [.kickoff(inputs=inputs)] *)
Definition kickoff (inputs : loc) : M string :=
  fun s =>
    let d := heap s !!! inputs in
    let '(d', r) := crew_kickoff crew d in
    (r, set_heap (<[inputs := d']> (heap s)) (add_call (CallKickoff inputs d) s)).

(** [.train(n_iterations=..., filename=..., inputs=inputs)] *)
Definition crew_do_train (n_iterations : Z) (filename : string) (inputs : loc) : M unit :=
  fun s =>
    let d := heap s !!! inputs in
    let '(d', r) := crew_train crew n_iterations filename d in
    (r, set_heap (<[inputs := d']> (heap s))
          (add_call (CallTrain n_iterations filename inputs d) s)).

(** [.replay(task_id=task_id)] *)
Definition crew_do_replay (task_id : pyval) : M string :=
  fun s => (crew_replay crew task_id, add_call (CallReplay task_id) s).

(** [.test(n_iterations=..., eval_llm=..., inputs=inputs)] *)
Definition crew_do_test (n_iterations : Z) (eval_llm : string) (inputs : loc) : M string :=
  fun s =>
    let d := heap s !!! inputs in
    let '(d', r) := crew_test crew n_iterations eval_llm d in
    (r, set_heap (<[inputs := d']> (heap s))
          (add_call (CallTest n_iterations eval_llm inputs d) s)).

(** [if inputs is None: inputs = get_default_inputs()] *)
Definition inputs_or_default (inputs : option loc) : M loc :=
  match inputs with
  | None => get_default_inputs
  | Some l => ret l
  end.

(** [except Exception as e: print(f"<prefix>{e}"); raise] *)
Definition except_Exception {A} (prefix : string) (e : Exc) : option (M A) :=
  if is_Exception e
  then Some (print (prefix +:+ exc_str e);; raise e)
  else None.

Definition run (inputs : option loc) : M unit :=
  inputs ← inputs_or_default inputs;
  inputs ← validate_inputs inputs;
  m ← getitem inputs "motion";
  print ("Starting debate on motion: " +:+ py_str m);;
  y ← getitem inputs "current_year";
  print ("Current year: " +:+ py_str y);;
  print (str_repeat "-" 50);;
  try_except
    (Debate_crew;;
     result ← kickoff inputs;
     print (nl +:+ str_repeat "=" 50);;
     print "DEBATE COMPLETED";;
     print (str_repeat "=" 50);;
     print ("Result: " +:+ result))
    (except_Exception "❌ Error occurred while running the crew: ").

(** The defaults of the keyword parameters of [train] and [test]. *)
Definition train_default_n_iterations : Z := 5.
Definition train_default_filename : string := "training_results.json".
Definition test_default_n_iterations : Z := 3.
Definition test_default_eval_llm : string := "openai/gpt-4o-mini".

Definition train (n_iterations : Z) (filename : string) (inputs : option loc) : M unit :=
  inputs ← inputs_or_default inputs;
  inputs ← validate_inputs inputs;
  print ("Training crew for " +:+ pretty n_iterations +:+ " iterations...");;
  m ← getitem inputs "motion";
  print ("Motion: " +:+ py_str m);;
  print ("Results will be saved to: " +:+ filename);;
  print (str_repeat "-" 50);;
  try_except
    (Debate_crew;;
     crew_do_train n_iterations filename inputs;;
     print ("✅ Training completed successfully! Results saved to " +:+ filename))
    (except_Exception "❌ Error occurred while training the crew: ").

Definition replay (task_id : pyval) : M unit :=
  print ("Replaying crew execution from task: " +:+ py_str task_id);;
  print (str_repeat "-" 50);;
  try_except
    (Debate_crew;;
     result ← crew_do_replay task_id;
     print "✅ Replay completed successfully!";;
     print ("Result: " +:+ result))
    (except_Exception "❌ Error occurred while replaying the crew: ").

Definition test (n_iterations : Z) (eval_llm : string) (inputs : option loc) : M unit :=
  inputs ← inputs_or_default inputs;
  inputs ← validate_inputs inputs;
  print ("Testing crew for " +:+ pretty n_iterations +:+ " iterations...");;
  print ("Evaluation LLM: " +:+ eval_llm);;
  m ← getitem inputs "motion";
  print ("Motion: " +:+ py_str m);;
  print (str_repeat "-" 50);;
  try_except
    (Debate_crew;;
     result ← crew_do_test n_iterations eval_llm inputs;
     print "✅ Testing completed successfully!";;
     print ("Test results: " +:+ result))
    (except_Exception "❌ Error occurred while testing the crew: ").

End Dispatcher.

(** ** The command line

    [main] declares its arguments with [argparse].  The parser below follows
    [ArgumentParser.parse_args] of CPython 3.11 for these declarations: one
    positional [action] with four choices, five options that take one value
    and the [-h]/[--help] option that [argparse] adds.  Argument strings
    are strings of bytes.  [parse_args] answers [None] for a command line
    that is outside the model:
    - one with the [--] separator;
    - one where the bare [--] is attached as the value of [--iterations],
      [--filename] or [--eval-llm] ([--filename=--]): the namespace then
      holds an empty list, which the model has for [--motion] and
      [--task-id] only;
    - one with an [--iterations] value that has a byte outside ASCII or more
      digits than [int] converts;
    - one with a string that starts with [-], stands for no option, has no
      space and has a byte outside ASCII: whether it is an argument depends
      on the Unicode digits in it. *)

Inductive Opt : Type :=
  | OHelp | OMotion | OIterations | OFilename | OEvalLlm | OTaskId.

Definition Opt_eqb (a b : Opt) : bool :=
  match a, b with
  | OHelp, OHelp | OMotion, OMotion | OIterations, OIterations
  | OFilename, OFilename | OEvalLlm, OEvalLlm | OTaskId, OTaskId => true
  | _, _ => false
  end.

(** [parser._option_string_actions] *)
Definition option_strings : list (string * Opt) :=
  [("-h", OHelp); ("--help", OHelp); ("--motion", OMotion);
   ("--iterations", OIterations); ("--filename", OFilename);
   ("--eval-llm", OEvalLlm); ("--task-id", OTaskId)].

Fixpoint lookup_option_in (l : list (string * Opt)) (s : string) : option Opt :=
  match l with
  | [] => None
  | (os, o) :: l' => if String.eqb os s then Some o else lookup_option_in l' s
  end.

Definition lookup_option : string -> option Opt := lookup_option_in option_strings.

(** How [_parse_optional] classifies an argument string: an argument
    (['A']), an option of the parser with the option string it stands for and
    the value attached to it, an option the parser does not have, or an
    abbreviation that fits several options.  [TOutside] is a string whose
    class the model does not determine. *)
Inductive Tok : Type :=
  | TArg (s : string)
  | TOpt (o : Opt) (option_string : string) (explicit_arg : option string)
  | TUnknown (s : string)
  | TAmbiguous
  | TOutside.

(** [s.split('=', 1)] when ['=' in s] *)
Fixpoint split_eq (s : string) : option (string * string) :=
  match s with
  | "" => None
  | String c s' =>
      if Ascii.eqb c "="%char then Some ("", s')
      else match split_eq s' with
           | Some (a, b) => Some (String c a, b)
           | None => None
           end
  end.

Definition is_digit (c : Ascii.ascii) : bool :=
  let n := Ascii.nat_of_ascii c in (48 <=? n)%nat && (n <=? 57)%nat.

Definition is_ascii (c : Ascii.ascii) : bool := (Ascii.nat_of_ascii c <? 128)%nat.

Fixpoint all_chars (p : Ascii.ascii -> bool) (s : string) : bool :=
  match s with
  | "" => true
  | String c s' => p c && all_chars p s'
  end.

Fixpoint any_char (p : Ascii.ascii -> bool) (s : string) : bool :=
  match s with
  | "" => false
  | String c s' => p c || any_char p s'
  end.

(** The characters of [s] from the first that fails [p]. *)
Fixpoint drop_chars (p : Ascii.ascii -> bool) (s : string) : string :=
  match s with
  | "" => ""
  | String c s' => if p c then drop_chars p s' else s
  end.

(** [s] without one line feed at its end, if it has one. *)
Fixpoint chomp (s : string) : string :=
  match s with
  | "" => ""
  | String c s' =>
      if Ascii.eqb c (Ascii.ascii_of_nat 10) && String.eqb s' "" then ""
      else String c (chomp s')
  end.

(** [_negative_number_matcher], the pattern ['^-\d+$|^-\d*\.\d+$'], on a
    string of ASCII characters: [-] and digits, or [-], digits, a dot and at
    least one digit; [$] also matches before a line feed that ends the
    string. *)
Definition negative_number (s : string) : bool :=
  match chomp s with
  | String "-" r =>
      match drop_chars is_digit r with
      | "" => negb (String.eqb r "")
      | String "." f => negb (String.eqb f "") && all_chars is_digit f
      | _ => false
      end
  | _ => false
  end.

(** [_get_option_tuples] *)
Definition get_option_tuples (s : string) : list Tok :=
  if String.prefix "--" s then
    let '(option_prefix, explicit_arg) :=
      match split_eq s with
      | Some (a, b) => (a, Some b)
      | None => (s, None)
      end in
    omap (fun '(os, o) =>
            if String.prefix option_prefix os
            then Some (TOpt o os explicit_arg) else None)
         option_strings
  else
    let short_option_prefix := String.substring 0 2 s in
    let short_explicit_arg := String.substring 2 (String.length s - 2) s in
    omap (fun '(os, o) =>
            if String.eqb os short_option_prefix
            then Some (TOpt o os (Some short_explicit_arg))
            else if String.prefix s os
            then Some (TOpt o os None) else None)
         option_strings.

(** [_parse_optional].  A string that looks like a negative number or has
    a space in it is an argument.  The digits of the pattern are those of
    Unicode: a string with a byte outside ASCII and no space, which
    [negative_number] does not judge, is left unclassified. *)
Definition parse_optional (s : string) : Tok :=
  if String.eqb s "" then TArg s
  else if negb (String.prefix "-" s) then TArg s
  else
    match lookup_option s with
    | Some o => TOpt o s None
    | None =>
        if (String.length s =? 1)%nat then TArg s
        else
          let exact :=
            match split_eq s with
            | Some (os, explicit_arg) =>
                match lookup_option os with
                | Some o => Some (TOpt o os (Some explicit_arg))
                | None => None
                end
            | None => None
            end in
          match exact with
          | Some t => t
          | None =>
              match get_option_tuples s with
              | _ :: _ :: _ => TAmbiguous
              | [t] => t
              | [] =>
                  if negative_number s then TArg s
                  else if any_char (Ascii.eqb " "%char) s then TArg s
                  else if negb (all_chars is_ascii s) then TOutside
                  else TUnknown s
              end
          end
    end.

(** [int(s)] for a command-line string: the integer, a [ValueError], or a
    string outside the model. *)
Inductive IntResult : Type :=
  | IntOk (z : Z)
  | IntValueError
  | IntOutside.

(** The white space [int] strips from a string of ASCII characters: the
    space and the characters 9 to 13. *)
Definition is_space (c : Ascii.ascii) : bool :=
  let n := Ascii.nat_of_ascii c in
  ((9 <=? n)%nat && (n <=? 13)%nat) || (n =? 32)%nat.

Fixpoint rstrip (s : string) : string :=
  match s with
  | "" => ""
  | String c s' =>
      let r := rstrip s' in
      if is_space c && String.eqb r "" then "" else String c r
  end.

Fixpoint count_chars (p : Ascii.ascii -> bool) (s : string) : nat :=
  match s with
  | "" => O
  | String c s' => ((if p c then 1 else 0) + count_chars p s')%nat
  end.

(** Decimal digits, single underscores allowed between two digits. *)
Fixpoint int_digits (s : string) (acc : Z) (after_digit : bool) : option Z :=
  match s with
  | "" => if after_digit then Some acc else None
  | String c s' =>
      if is_digit c
      then int_digits s' (10 * acc + (Z.of_nat (Ascii.nat_of_ascii c) - 48)) true
      else if Ascii.eqb c "_"%char
      then (if after_digit then int_digits s' acc false else None)
      else None
  end.

Definition int_max_str_digits : nat := 4300.

Definition py_int (s : string) : IntResult :=
  if negb (all_chars is_ascii s) then IntOutside
  else if (int_max_str_digits <? count_chars is_digit s)%nat then IntOutside
  else
    let t := rstrip (drop_chars is_space s) in
    let signed :=
      match t with
      | String "+" r => option_map (fun z => z) (int_digits r 0 false)
      | String "-" r => option_map Z.opp (int_digits r 0 false)
      | _ => int_digits t 0 false
      end in
    match signed with
    | Some z => IntOk z
    | None => IntValueError
    end.

(** What the store action leaves in the namespace for an option of type
    [str]: the string, or the empty list [[]] when the value attached to the
    option is the bare [--], which [_get_values] removes. *)
Inductive argstr : Type :=
  | AStr (s : string)
  | AEmptyList.

Coercion AStr : string >-> argstr.

(** [Some s] for a string [s] is read at the type it is used at. *)
Arguments Some {A} & a.

(** What [parse_args] returns: [args.action], [args.motion], ... *)
Record Namespace : Type := mkNamespace {
  action : string;
  motion : option argstr;
  iterations : Z;
  filename : string;
  eval_llm : string;
  task_id : option argstr
}.

(** The [default=] of each [add_argument]; an option without one defaults
    to [None]. *)
Definition default_namespace : Namespace :=
  mkNamespace "" None 5 "training_results.json" "openai/gpt-4o-mini" None.

Definition set_action (v : string) (ns : Namespace) : Namespace :=
  mkNamespace v (motion ns) (iterations ns) (filename ns) (eval_llm ns) (task_id ns).

(** The outcome of [parser.parse_args()]: the namespace, or the help text
    and exit status 0, or the usage message and exit status 2. *)
Inductive ParseResult : Type :=
  | Parsed (args : Namespace)
  | ParseHelp
  | ParseError.

(** [_get_values] for an option that takes one value: the bare [--] is
    removed from the argument strings, which leaves the empty list, stored
    without conversion. *)
Definition get_values (v : string) : argstr :=
  if String.eqb v "--" then AEmptyList else AStr v.

(** The store action of an option with its [type=] conversion: [None] outside
    the model, [Some None] when the conversion fails.  [args.iterations],
    [args.filename] and [args.eval_llm] are an integer and two strings in the
    model, which has no place for an empty list there. *)
Definition store (o : Opt) (v : string) (ns : Namespace) : option (option Namespace) :=
  match o with
  | OHelp => Some None
  | OMotion =>
      Some (Some (mkNamespace (action ns) (Some (get_values v)) (iterations ns)
                              (filename ns) (eval_llm ns) (task_id ns)))
  | OIterations =>
      match get_values v with
      | AEmptyList => None
      | AStr v =>
          match py_int v with
          | IntOk z =>
              Some (Some (mkNamespace (action ns) (motion ns) z (filename ns)
                                      (eval_llm ns) (task_id ns)))
          | IntValueError => Some None
          | IntOutside => None
          end
      end
  | OFilename =>
      match get_values v with
      | AEmptyList => None
      | AStr v =>
          Some (Some (mkNamespace (action ns) (motion ns) (iterations ns) v
                                  (eval_llm ns) (task_id ns)))
      end
  | OEvalLlm =>
      match get_values v with
      | AEmptyList => None
      | AStr v =>
          Some (Some (mkNamespace (action ns) (motion ns) (iterations ns)
                                  (filename ns) v (task_id ns)))
      end
  | OTaskId =>
      Some (Some (mkNamespace (action ns) (motion ns) (iterations ns) (filename ns)
                              (eval_llm ns) (Some (get_values v))))
  end.

(** [choices=["run", "train", "replay", "test"]] *)
Definition action_choices : list string := ["run"; "train"; "replay"; "test"].

Definition is_choice (s : string) : bool := existsb (String.eqb s) action_choices.

(** The loop of [_parse_known_args] over the classified argument strings:
    arguments and options are consumed from left to right; [seen_action]
    says that the positional has been taken, [extras] that some string was
    left over. *)
Fixpoint parse_loop (toks : list Tok) (ns : Namespace) (seen_action extras : bool)
  : option ParseResult :=
  match toks with
  | [] =>
      Some (if negb seen_action then ParseError
            else if extras then ParseError
            else Parsed ns)
  | TArg s :: rest =>
      if seen_action then parse_loop rest ns true true
      else if is_choice s then parse_loop rest (set_action s ns) true extras
      else Some ParseError
  | TOpt OHelp os explicit_arg :: _ =>
      match explicit_arg with
      | None => Some ParseHelp
      | Some e =>
          if String.eqb os "-h" && negb (String.eqb e "")
             && all_chars (Ascii.eqb "h"%char) e
          then Some ParseHelp else Some ParseError
      end
  | TOpt o _ (Some v) :: rest =>
      match store o v ns with
      | Some (Some ns') => parse_loop rest ns' seen_action extras
      | Some None => Some ParseError
      | None => None
      end
  | TOpt o _ None :: rest =>
      match rest with
      | TArg v :: rest' =>
          match store o v ns with
          | Some (Some ns') => parse_loop rest' ns' seen_action extras
          | Some None => Some ParseError
          | None => None
          end
      | TOutside :: _ => None
      | _ => Some ParseError
      end
  | TUnknown _ :: rest => parse_loop rest ns seen_action true
  | TAmbiguous :: _ => Some ParseError
  | TOutside :: _ => None
  end.

Definition is_ambiguous (t : Tok) : bool :=
  match t with TAmbiguous => true | _ => false end.

(** [parser.parse_args()] on [sys.argv[1:]]. *)
Definition parse_args (args : list string) : option ParseResult :=
  if existsb (String.eqb "--") args then None
  else
    let toks := map parse_optional args in
    if existsb is_ambiguous toks then Some ParseError
    else parse_loop toks default_namespace false false.

(** ** [main] and the [__main__] guard *)

(** An attribute of the namespace that is [None], a string or the empty
    list. *)
Definition py_opt (o : option argstr) : pyval :=
  match o with
  | None => PyNone
  | Some (AStr s) => PyStr s
  | Some AEmptyList => PyEmptyList
  end.

Section Main.

Variable crew : Crew.

(** The [except] clauses of [main]. *)
Definition main_clauses (e : Exc) : option (M unit) :=
  if is_KeyboardInterrupt e
  then Some (print (nl +:+ "⚠️  Operation cancelled by user");; sys_exit 1)
  else if is_Exception e
  then Some (print ("❌ Fatal error: " +:+ exc_str e);; sys_exit 1)
  else None.

(** [main] from the statement after [args = parser.parse_args()]. *)
Definition main_body (args : Namespace) : M unit :=
  inputs ← get_default_inputs;
  (if truthy (py_opt (motion args))
   then setitem inputs "motion" (py_opt (motion args))
   else ret tt);;
  try_except
    (if String.eqb (action args) "run" then
       run crew (Some inputs)
     else if String.eqb (action args) "train" then
       train crew (iterations args) (filename args) (Some inputs)
     else if String.eqb (action args) "replay" then
       (if negb (truthy (py_opt (task_id args)))
        then print "❌ Error: task-id is required for replay action";;
             sys_exit 1
        else ret tt);;
       replay crew (py_opt (task_id args))
     else if String.eqb (action args) "test" then
       test crew (iterations args) (eval_llm args) (Some inputs)
     else ret tt)
    main_clauses.

(** [main()], given what [parser.parse_args()] did. *)
Definition main_after (r : ParseResult) : M unit :=
  match r with
  | Parsed args => main_body args
  | ParseHelp => fun s => (Raise (mkExc (SystemExit 0) "0"), add_stdout ArgparseHelp s)
  | ParseError => fun s => (Raise (mkExc (SystemExit 2) "2"), add_stderr ArgparseUsage s)
  end.

(** [main()] for [sys.argv = argv]; [None] when the command line is outside
    the model of [argparse]. *)
Definition main (argv : list string) : option (M unit) :=
  r ← parse_args (tail argv); Some (main_after r).

(** The [if __name__ == "__main__":] block. *)
Definition dunder_main (argv : list string) : option (M unit) :=
  if (length argv =? 1)%nat
  then Some (print "Running debate crew with default settings...";; run crew None)
  else main argv.

End Main.

(** How the process ends: with an exit status, or with an exception that
    reached the interpreter, which writes its traceback to standard error
    and exits with a non-zero status. *)
Inductive Termination : Type :=
  | Exited (status : Z)
  | Uncaught (e : Exc).

(** The exit status of [SystemExit(n)] for an integer [n], on a POSIX
    system with a C [long] of 64 bits: the interpreter converts [n] to a C
    [long], which gives -1 when [n] does not fit, and the system keeps the
    low eight bits. *)
Definition exit_status (n : Z) : Z :=
  if (- 2 ^ 63 <=? n) && (n <? 2 ^ 63) then n mod 256 else 255.

(** What the interpreter does with an exception that reaches it.
    [SystemExit] ends the process without a traceback: an integer code gives
    the exit status, [None] is status 0, any other code is written to
    standard error and the status is 1.  Any other exception is reported. *)
Definition unhandled (e : Exc) (s : State) : Termination * State :=
  match exc_class e with
  | SystemExit (CodeInt n) => (Exited (exit_status n), s)
  | SystemExit CodeNone => (Exited 0, s)
  | SystemExit (CodeObject text) => (Exited 1, add_stderr (Text text) s)
  | _ => (Uncaught e, add_stderr (Traceback e) s)
  end.

(** The interpreter around a script. *)
Definition interpreter (script : M unit) (s : State) : Termination * State :=
  match script s with
  | (Ok _, s') => (Exited 0, s')
  | (Raise e, s') => unhandled e s'
  end.

(** Running the program with [sys.argv = argv]. *)
Definition process (crew : Crew) (argv : list string) (s : State)
  : option (Termination * State) :=
  script ← dunder_main crew argv; Some (interpreter script s).

(** ** Crews and states used in examples *)

(** A crew whose operations leave the mapping alone and return [result]. *)
Definition quiet_crew (result : string) : Crew :=
  mkCrew None
         (fun d => (d, Ok result))
         (fun _ _ d => (d, Ok tt))
         (fun _ => Ok result)
         (fun _ _ d => (d, Ok result)).

(** A crew whose four operations raise [e]. *)
Definition failing_crew (e : Exc) : Crew :=
  mkCrew None
         (fun d => (d, Raise e))
         (fun _ _ d => (d, Raise e))
         (fun _ => Raise e)
         (fun _ _ d => (d, Raise e)).

(** A fresh process in the year [y]. *)
Definition initial_state (y : Z) : State := mkState ∅ y [] [] [].

(** ** Notions used in the statements *)

#[global] Instance pyval_inhabited : Inhabited pyval := populate PyNone.

(** The contents of a mapping with contents [m] once [validate_inputs] has
    run on it in the year [y]. *)
Definition validated (y : Z) (m : dict) : dict :=
  let m1 := if truthy (default PyNone (m !! "motion")) then m
            else <["motion" := PyStr default_motion]> m in
  if truthy (default PyNone (m1 !! "current_year")) then m1
  else <["current_year" := PyStr (pretty y)]> m1.

(** The mapping an operation starts from: the contents of the caller's
    object, or the defaults when [inputs] is [None]. *)
Definition supplied (s : State) (inputs : option loc) (m : dict) : Prop :=
  match inputs with
  | Some l => heap s !! l = Some m
  | None => m = default_inputs (year s)
  end.

(** No value is supplied under key [k]: the mapping is absent, or the key is
    missing, or its value is empty. *)
Definition not_supplied (s : State) (inputs : option loc) (k : string) : Prop :=
  match inputs with
  | Some l => exists m, heap s !! l = Some m /\ truthy (default PyNone (m !! k)) = false
  | None => True
  end.

(** What the delegated expression [Debate().crew().op(...)] yields, when the
    operation itself yields [r]. *)
Definition outcome {A} (crew : Crew) (r : Res A) : Res A :=
  match debate_crew crew with
  | Some e => Raise e
  | None => r
  end.

(** The calls that reach the crew object: none when it could not be built. *)
Definition crew_calls (crew : Crew) (c : Call) : list Call :=
  match debate_crew crew with
  | Some _ => []
  | None => [c]
  end.

(** The heap after the delegated expression, where the operation leaves
    contents [d'] in the object [l]. *)
Definition crew_heap (crew : Crew) (l : loc) (d' : dict) (h : gmap loc dict)
  : gmap loc dict :=
  match debate_crew crew with
  | Some _ => h
  | None => <[l := d']> h
  end.

Definition finish {A} (r : Res A) : Res unit :=
  match r with
  | Ok _ => Ok tt
  | Raise e => Raise e
  end.

(** The lines printed after the delegated expression. *)
Definition report {A} (prefix : string) (r : Res A) (lines : A -> list Written)
  : list Written :=
  match r with
  | Ok a => lines a
  | Raise e => if is_Exception e then [Text (prefix +:+ exc_str e)] else []
  end.

Definition run_prefix : string := "❌ Error occurred while running the crew: ".
Definition train_prefix : string := "❌ Error occurred while training the crew: ".
Definition replay_prefix : string := "❌ Error occurred while replaying the crew: ".
Definition test_prefix : string := "❌ Error occurred while testing the crew: ".

(** Everything [run] prints for a validated mapping with contents [d]. *)
Definition run_output (crew : Crew) (d : dict) : list Written :=
  [Text ("Starting debate on motion: " +:+ py_str (d !!! "motion"));
   Text ("Current year: " +:+ py_str (d !!! "current_year"));
   Text (str_repeat "-" 50)] ++
  report run_prefix (outcome crew (crew_kickoff crew d).2)
    (fun result =>
       [Text (nl +:+ str_repeat "=" 50); Text "DEBATE COMPLETED";
        Text (str_repeat "=" 50); Text ("Result: " +:+ result)]).

Definition train_output (crew : Crew) (n : Z) (file : string) (d : dict) : list Written :=
  [Text ("Training crew for " +:+ pretty n +:+ " iterations...");
   Text ("Motion: " +:+ py_str (d !!! "motion"));
   Text ("Results will be saved to: " +:+ file);
   Text (str_repeat "-" 50)] ++
  report train_prefix (outcome crew (crew_train crew n file d).2)
    (fun _ =>
       [Text ("✅ Training completed successfully! Results saved to " +:+ file)]).

Definition replay_output (crew : Crew) (task : pyval) : list Written :=
  [Text ("Replaying crew execution from task: " +:+ py_str task);
   Text (str_repeat "-" 50)] ++
  report replay_prefix (outcome crew (crew_replay crew task))
    (fun result =>
       [Text "✅ Replay completed successfully!"; Text ("Result: " +:+ result)]).

Definition test_output (crew : Crew) (n : Z) (llm : string) (d : dict) : list Written :=
  [Text ("Testing crew for " +:+ pretty n +:+ " iterations...");
   Text ("Evaluation LLM: " +:+ llm);
   Text ("Motion: " +:+ py_str (d !!! "motion"));
   Text (str_repeat "-" 50)] ++
  report test_prefix (outcome crew (crew_test crew n llm d).2)
    (fun result =>
       [Text "✅ Testing completed successfully!"; Text ("Test results: " +:+ result)]).

(** Every object of [h] other than [l] is in [h'] with the same contents. *)
Definition frame (l : loc) (h h' : gmap loc dict) : Prop :=
  forall l' x, l' <> l -> h !! l' = Some x -> h' !! l' = Some x.

(** Where the mapping object [l] of an operation comes from: it is the
    caller's object, or the next new one. *)
Definition origin (s : State) (inputs : option loc) (l : loc) : Prop :=
  match inputs with
  | Some l0 => l = l0
  | None => l = fresh (dom (heap s))
  end.

(** The mapping [main] builds before it dispatches: the defaults, with the
    motion of the command line when there is a non-empty one. *)
Definition cli_inputs (y : Z) (args : Namespace) : dict :=
  if truthy (py_opt (motion args))
  then <["motion" := py_opt (motion args)]> (default_inputs y)
  else default_inputs y.

Definition cancel_line : string := nl +:+ "⚠️  Operation cancelled by user".
Definition fatal_prefix : string := "❌ Fatal error: ".
Definition task_id_required : string := "❌ Error: task-id is required for replay action".

(** What the [try] statement of [main] makes of the result [r] of its body,
    and the line its handler prints. *)
Definition handled (r : Res unit) : Res unit :=
  match r with
  | Ok _ => Ok tt
  | Raise e =>
      if is_KeyboardInterrupt e || is_Exception e
      then Raise (mkExc (SystemExit 1) (pretty 1))
      else Raise e
  end.

Definition handler_lines (r : Res unit) : list Written :=
  match r with
  | Ok _ => []
  | Raise e =>
      if is_KeyboardInterrupt e then [Text cancel_line]
      else if is_Exception e then [Text (fatal_prefix +:+ exc_str e)]
      else []
  end.

(** What an observer of the process sees: how it ended, the two streams and
    the calls that reached the crew. *)
Definition behaviour (r : option (Termination * State))
  : option (Termination * list Written * list Written * list Call) :=
  match r with
  | Some (t, s) => Some (t, stdout s, stderr s, calls s)
  | None => None
  end.

(** The token [t] is the option [o]. *)
Definition is_opt (o : Opt) (t : Tok) : bool :=
  match t with
  | TOpt o' _ _ => Opt_eqb o o'
  | _ => false
  end.

(** The option [o] is given on the command line: some argument string is
    classified as [o], in full, abbreviated or with [=value]. *)
Definition flag_given (o : Opt) (args : list string) : bool :=
  existsb (fun s => is_opt o (parse_optional s)) args.

(** A state in which a caller holds one mapping object, still empty. *)
Definition caller_state : State := mkState {[1%positive := ∅]} 2025 [] [] [].

(** The operation [op] prints [prefix] followed by [str(e)] as its last line
    on standard output, writes nothing to standard error and lets [e]
    through to its caller. *)
Definition reraises (op : M unit) (s : State) (prefix : string) (e : Exc) : Prop :=
  exists (s' : State) (out : list Written),
    op s = (Raise e, s') /\
    stdout s' = stdout s ++ out ++ [Text (prefix +:+ exc_str e)] /\
    stderr s' = stderr s.

(** The process exits with status 1; the last two lines on standard output
    are [prefix] with [str(e)] and the fatal-error line with [str(e)];
    nothing is written to standard error. *)
Definition exits_reporting (crew : Crew) (argv : list string) (s : State)
    (prefix : string) (e : Exc) : Prop :=
  exists (s' : State) (out : list Written),
    process crew argv s = Some (Exited 1, s') /\
    stdout s' = stdout s ++ out ++
                [Text (prefix +:+ exc_str e); Text ("❌ Fatal error: " +:+ exc_str e)] /\
    stderr s' = stderr s.

(** With no arguments nothing catches what [run] lets through: the last
    line on standard output is [prefix] with [str(e)], and [e] reaches the
    interpreter, which writes its traceback to standard error and exits with
    a non-zero status. *)
Definition aborts_reporting (crew : Crew) (argv : list string) (s : State)
    (prefix : string) (e : Exc) : Prop :=
  exists (s' : State) (out : list Written),
    process crew argv s = Some (Uncaught e, s') /\
    stdout s' = stdout s ++ out ++ [Text (prefix +:+ exc_str e)] /\
    stderr s' = stderr s ++ [Traceback e].

(** ** Notions used for the dispatcher as a whole *)

(** The lines an operation prints before its [try] statement. *)
Definition run_header (d : dict) : list Written :=
  [Text ("Starting debate on motion: " +:+ py_str (d !!! "motion"));
   Text ("Current year: " +:+ py_str (d !!! "current_year"));
   Text (str_repeat "-" 50)].

Definition train_header (n : Z) (file : string) (d : dict) : list Written :=
  [Text ("Training crew for " +:+ pretty n +:+ " iterations...");
   Text ("Motion: " +:+ py_str (d !!! "motion"));
   Text ("Results will be saved to: " +:+ file);
   Text (str_repeat "-" 50)].

Definition replay_header (task : pyval) : list Written :=
  [Text ("Replaying crew execution from task: " +:+ py_str task);
   Text (str_repeat "-" 50)].

Definition test_header (n : Z) (llm : string) (d : dict) : list Written :=
  [Text ("Testing crew for " +:+ pretty n +:+ " iterations...");
   Text ("Evaluation LLM: " +:+ llm);
   Text ("Motion: " +:+ py_str (d !!! "motion"));
   Text (str_repeat "-" 50)].

(** For the action chosen on the command line, with the mapping contents
    [d]: what the delegated expression yields, the header the operation
    prints, everything the operation prints, and the call it makes on the
    object [l]. *)
Definition cli_result (crew : Crew) (args : Namespace) (d : dict) : Res unit :=
  if String.eqb (action args) "run" then
    finish (outcome crew (crew_kickoff crew d).2)
  else if String.eqb (action args) "train" then
    finish (outcome crew (crew_train crew (iterations args) (filename args) d).2)
  else if String.eqb (action args) "replay" then
    finish (outcome crew (crew_replay crew (py_opt (task_id args))))
  else if String.eqb (action args) "test" then
    finish (outcome crew (crew_test crew (iterations args) (eval_llm args) d).2)
  else Ok tt.

Definition cli_header (args : Namespace) (d : dict) : list Written :=
  if String.eqb (action args) "run" then run_header d
  else if String.eqb (action args) "train" then
    train_header (iterations args) (filename args) d
  else if String.eqb (action args) "replay" then replay_header (py_opt (task_id args))
  else if String.eqb (action args) "test" then
    test_header (iterations args) (eval_llm args) d
  else [].

Definition cli_output (crew : Crew) (args : Namespace) (d : dict) : list Written :=
  if String.eqb (action args) "run" then run_output crew d
  else if String.eqb (action args) "train" then
    train_output crew (iterations args) (filename args) d
  else if String.eqb (action args) "replay" then
    replay_output crew (py_opt (task_id args))
  else if String.eqb (action args) "test" then
    test_output crew (iterations args) (eval_llm args) d
  else [].

Definition cli_call (args : Namespace) (l : loc) (d : dict) : Call :=
  if String.eqb (action args) "run" then CallKickoff l d
  else if String.eqb (action args) "train" then
    CallTrain (iterations args) (filename args) l d
  else if String.eqb (action args) "replay" then CallReplay (py_opt (task_id args))
  else CallTest (iterations args) (eval_llm args) l d.

(** The prefix of the error line of the chosen action. *)
Definition cli_prefix (args : Namespace) : string :=
  if String.eqb (action args) "run" then run_prefix
  else if String.eqb (action args) "train" then train_prefix
  else if String.eqb (action args) "replay" then replay_prefix
  else test_prefix.

(** The command line asks for [replay] without a usable task id. *)
Definition replay_without_task (args : Namespace) : bool :=
  String.eqb (action args) "replay" && negb (truthy (py_opt (task_id args))).

Definition banner : string := "Running debate crew with default settings...".

(** A complete mapping with an extra key, and a state whose only object
    holds it. *)
Definition complete_mapping : dict :=
  <["tone" := PyStr "formal"]>
    (<["motion" := PyStr "Cats"]> (<["current_year" := PyInt 1999]> ∅)).

Definition complete_state : State := mkState {[1%positive := complete_mapping]} 2025 [] [] [].

(** A state with an empty mapping and, beside it, another object. *)
Definition two_objects_state : State :=
  mkState (<[2%positive := default_inputs 1999]> {[1%positive := ∅]}) 2025 [] [] [].

(** * Properties *)

(** ** Running monadic code *)

Lemma bind_run {A B} (m : M A) (k : A -> M B) (s : State) :
  (m ≫= k) s = match m s with
               | (Ok a, s') => k a s'
               | (Raise e, s') => (Raise e, s')
               end.
Proof. reflexivity. Qed.

Lemma set_heap_same (s : State) : set_heap (heap s) s = s.
Proof. by destruct s. Qed.

(** ** [str] of an integer is never empty *)

Lemma pretty_N_go_nonempty (x : N) (s : string) : s <> "" -> pretty_N_go x s <> "".
Proof.
  revert s. induction (N.lt_wf_0 x) as [x _ IH]. intros s Hs.
  destruct (decide (x = 0%N)) as [->|Hx].
  - by rewrite pretty_N_go_0.
  - rewrite pretty_N_go_step by lia. apply IH; [|done].
    apply N.div_lt; lia.
Qed.

Lemma pretty_Z_nonempty (z : Z) : pretty z <> "".
Proof.
  destruct z as [|p|p]; [done| |done].
  unfold pretty, pretty_Z, pretty, pretty_positive, pretty, pretty_N.
  simpl. 
  rewrite pretty_N_go_step by lia. by apply pretty_N_go_nonempty.
Qed.

Lemma truthy_PyStr (s : string) : truthy (PyStr s) = true <-> s <> "".
Proof.
  simpl. rewrite negb_true_iff. split.
  - intros H ->. by rewrite String.eqb_refl in H.
  - intros H. by apply String.eqb_neq.
Qed.

Lemma truthy_pretty (y : Z) : truthy (PyStr (pretty y)) = true.
Proof. apply truthy_PyStr, pretty_Z_nonempty. Qed.


(** ** [validated] *)

Lemma validated_motion_default (y : Z) (m : dict) :
  truthy (default PyNone (m !! "motion")) = false ->
  validated y m !! "motion" = Some (PyStr default_motion).
Proof.
  intros H. unfold validated; cbv zeta. rewrite H.
  rewrite lookup_insert_ne by done.
  destruct (truthy (default PyNone (m !! "current_year")));
    [|rewrite lookup_insert_ne by done]; by rewrite lookup_insert_eq.
Qed.

Lemma validated_motion_kept (y : Z) (m : dict) :
  truthy (default PyNone (m !! "motion")) = true ->
  validated y m !! "motion" = m !! "motion".
Proof.
  intros H. unfold validated; cbv zeta. rewrite H.
  destruct (truthy (default PyNone (m !! "current_year"))); [done|].
  by rewrite lookup_insert_ne.
Qed.

Lemma validated_year_default (y : Z) (m : dict) :
  truthy (default PyNone (m !! "current_year")) = false ->
  validated y m !! "current_year" = Some (PyStr (pretty y)).
Proof.
  intros H. unfold validated; cbv zeta.
  destruct (truthy (default PyNone (m !! "motion")));
    [|rewrite lookup_insert_ne by done]; rewrite H; by rewrite lookup_insert_eq.
Qed.

Lemma validated_year_kept (y : Z) (m : dict) :
  truthy (default PyNone (m !! "current_year")) = true ->
  validated y m !! "current_year" = m !! "current_year".
Proof.
  intros H. unfold validated; cbv zeta.
  destruct (truthy (default PyNone (m !! "motion")));
    [|rewrite lookup_insert_ne by done]; rewrite H; [done|].
  by rewrite lookup_insert_ne.
Qed.

Lemma validated_other (y : Z) (m : dict) (k : string) :
  k <> "motion" -> k <> "current_year" -> validated y m !! k = m !! k.
Proof.
  intros H1 H2. unfold validated; cbv zeta.
  destruct (truthy (default PyNone (m !! "motion")));
    [|rewrite (lookup_insert_ne m "motion" "current_year") by done];
    destruct (truthy (default PyNone (m !! "current_year")));
    by rewrite ?lookup_insert_ne by congruence.
Qed.

Lemma validated_truthy_motion (y : Z) (m : dict) :
  exists v, validated y m !! "motion" = Some v /\ truthy v = true.
Proof.
  destruct (truthy (default PyNone (m !! "motion"))) eqn:H.
  - rewrite validated_motion_kept by done.
    destruct (m !! "motion") as [v|]; [eauto | done].
  - rewrite validated_motion_default by done. eauto.
Qed.

Lemma validated_truthy_year (y : Z) (m : dict) :
  exists v, validated y m !! "current_year" = Some v /\ truthy v = true.
Proof.
  destruct (truthy (default PyNone (m !! "current_year"))) eqn:H.
  - rewrite validated_year_kept by done.
    destruct (m !! "current_year") as [v|]; [eauto | done].
  - rewrite validated_year_default by done. eauto using truthy_pretty.
Qed.

Lemma validated_id (y : Z) (m : dict) :
  truthy (default PyNone (m !! "motion")) = true ->
  truthy (default PyNone (m !! "current_year")) = true ->
  validated y m = m.
Proof. intros H1 H2. unfold validated; cbv zeta. by rewrite H1, H2. Qed.

Lemma validated_validated (y y' : Z) (m : dict) :
  validated y' (validated y m) = validated y m.
Proof.
  destruct (validated_truthy_motion y m) as (v & Hv & Tv).
  destruct (validated_truthy_year y m) as (w & Hw & Tw).
  apply validated_id; [by rewrite Hv | by rewrite Hw].
Qed.

Lemma validated_default_inputs (y : Z) : validated y (default_inputs y) = default_inputs y.
Proof. apply validated_id; [done|]. apply truthy_pretty. Qed.

(** ** [get_default_inputs] and [validate_inputs] on the heap *)

Lemma get_default_inputs_run (s : State) :
  get_default_inputs s =
    (Ok (fresh (dom (heap s))),
     set_heap (<[fresh (dom (heap s)) := default_inputs (year s)]> (heap s)) s).
Proof. reflexivity. Qed.

Lemma fresh_loc_None (h : gmap loc dict) : h !! fresh (dom h) = None.
Proof. apply not_elem_of_dom, is_fresh. Qed.

Lemma default_inputs_motion (y : Z) :
  default_inputs y !! "motion" = Some (PyStr default_motion).
Proof. unfold default_inputs. by rewrite lookup_insert_eq. Qed.

Lemma default_inputs_year (y : Z) :
  default_inputs y !! "current_year" = Some (PyStr (pretty y)).
Proof.
  unfold default_inputs. rewrite lookup_insert_ne by done. by rewrite lookup_insert_eq.
Qed.

Lemma frame_refl (l : loc) (h : gmap loc dict) : frame l h h.
Proof. by intros l' x _ H. Qed.

Lemma frame_trans (l : loc) (h1 h2 h3 : gmap loc dict) :
  frame l h1 h2 -> frame l h2 h3 -> frame l h1 h3.
Proof. intros H12 H23 l' x Hne H. by apply H23, H12. Qed.

(** Filling one key from a new default mapping, as both branches of
    [validate_inputs] do. *)
Lemma fill_default_run (l : loc) (k : string) (v : pyval) (s : State) (m : dict) :
  heap s !! l = Some m ->
  default_inputs (year s) !! k = Some v ->
  exists h' : gmap loc dict,
    (d ← get_default_inputs; v ← getitem d k; setitem l k v) s = (Ok tt, set_heap h' s) /\
    h' !! l = Some (<[k := v]> m) /\
    frame l (heap s) h'.
Proof.
  intros Hl Hk.
  assert (fresh (dom (heap s)) <> l) as Hne.
  { intros <-. by rewrite fresh_loc_None in Hl. }
  rewrite bind_run, get_default_inputs_run, bind_run.
  unfold getitem, setitem; cbn [heap set_heap].
  rewrite lookup_total_insert_eq, Hk; cbn [heap set_heap].
  rewrite lookup_total_insert_ne by done.
  rewrite (lookup_total_correct _ _ _ Hl).
  eexists. split; [reflexivity|]. split; [by rewrite lookup_insert_eq|].
  intros l' x Hl' Hx. rewrite lookup_insert_ne by done.
  rewrite lookup_insert_ne; [done|]. intros <-. by rewrite fresh_loc_None in Hx.
Qed.

Lemma validate_inputs_run (l : loc) (s : State) (m : dict) :
  heap s !! l = Some m ->
  exists h' : gmap loc dict,
    validate_inputs l s = (Ok l, set_heap h' s) /\
    h' !! l = Some (validated (year s) m) /\
    frame l (heap s) h'.
Proof.
  intros Hl.
  unfold validate_inputs, validated; cbv zeta.
  rewrite bind_run. unfold dict_get at 1. rewrite (lookup_total_correct _ _ _ Hl).
  destruct (truthy (default PyNone (m !! "motion"))) eqn:Hm; cbn [negb].
  - rewrite bind_run. unfold ret at 1. rewrite bind_run. unfold dict_get at 1.
    rewrite (lookup_total_correct _ _ _ Hl).
    destruct (truthy (default PyNone (m !! "current_year"))) eqn:Hy; cbn [negb].
    + rewrite bind_run. unfold ret. exists (heap s). rewrite set_heap_same.
      auto using frame_refl.
    + destruct (fill_default_run l _ _ s m Hl (default_inputs_year _))
        as (h' & Hrun & Hh' & Hfr).
      rewrite bind_run, Hrun. unfold ret. eauto.
  - destruct (fill_default_run l _ _ s m Hl (default_inputs_motion _))
      as (h1 & Hrun1 & Hh1 & Hfr1).
    rewrite bind_run, Hrun1.
    rewrite bind_run. unfold dict_get at 1. cbn [heap set_heap].
    rewrite (lookup_total_correct _ _ _ Hh1).
    destruct (truthy (default PyNone (<["motion":=PyStr default_motion]> m !! "current_year")))
      eqn:Hy; cbn [negb].
    + rewrite bind_run. unfold ret. eauto.
    + destruct (fill_default_run l _ _ (set_heap h1 s) _ Hh1 (default_inputs_year _))
        as (h2 & Hrun2 & Hh2 & Hfr2).
      rewrite bind_run, Hrun2. unfold ret. cbn [set_heap heap year stdout stderr calls] in *.
      exists h2. split; [done|]. split; [done|]. by eapply frame_trans.
Qed.

(** A second [validate_inputs] finds nothing to fill and changes nothing,
    whatever the year has become. *)
Lemma validate_inputs_valid (l : loc) (s : State) (m : dict) :
  heap s !! l = Some m ->
  truthy (default PyNone (m !! "motion")) = true ->
  truthy (default PyNone (m !! "current_year")) = true ->
  validate_inputs l s = (Ok l, s).
Proof.
  intros Hl Hm Hy. unfold validate_inputs.
  rewrite bind_run. unfold dict_get at 1. rewrite (lookup_total_correct _ _ _ Hl), Hm.
  cbn [negb]. rewrite bind_run. unfold ret at 1. rewrite bind_run. unfold dict_get at 1.
  rewrite (lookup_total_correct _ _ _ Hl), Hy. cbn [negb].
  by rewrite bind_run.
Qed.

(** ** The operations *)

(** The common opening of [run], [train] and [test]. *)
Lemma prologue_run {A} (inputs : option loc) (k : loc -> M A) (s : State) (m : dict) :
  supplied s inputs m ->
  exists (l : loc) (h' : gmap loc dict),
    (l0 ← inputs_or_default inputs; l1 ← validate_inputs l0; k l1) s = k l (set_heap h' s) /\
    h' !! l = Some (validated (year s) m) /\
    origin s inputs l /\
    frame l (heap s) h'.
Proof.
  destruct inputs as [l|]; cbn [supplied origin inputs_or_default].
  - intros Hl. destruct (validate_inputs_run l s m Hl) as (h' & Hrun & Hh' & Hfr).
    exists l, h'. rewrite bind_run. unfold ret at 1. rewrite bind_run, Hrun. done.
  - intros ->. rewrite bind_run, get_default_inputs_run, bind_run.
    set (l := fresh (dom (heap s))).
    erewrite validate_inputs_valid;
      [| cbn [heap set_heap]; apply lookup_insert_eq | done | apply truthy_pretty].
    exists l, (<[l := default_inputs (year s)]> (heap s)).
    split; [done|]. rewrite validated_default_inputs, lookup_insert_eq.
    split; [done|]. split; [done|].
    intros l' x Hne Hx. by rewrite lookup_insert_ne.
Qed.

Lemma print_run (str : string) (s : State) :
  print str s = (Ok tt, add_stdout (Text str) s).
Proof. reflexivity. Qed.

Ltac py_proj := cbn [heap year stdout stderr calls add_stdout add_stderr add_call set_heap].

Ltac py_eval :=
  repeat first
    [ rewrite bind_run
    | rewrite print_run
    | progress py_proj
    | progress cbv beta iota ].

Lemma State_eq (s1 s2 : State) :
  heap s1 = heap s2 -> year s1 = year s2 -> stdout s1 = stdout s2 ->
  stderr s1 = stderr s2 -> calls s1 = calls s2 -> s1 = s2.
Proof. destruct s1, s2; cbn. by intros -> -> -> -> ->. Qed.

Ltac py_same :=
  lazymatch goal with |- ?x = ?y => constr_eq x y; reflexivity end.

(** Closes [(r, s) = (r', s')] when both sides are the same result and the
    same state, field by field. *)
Ltac py_done :=
  unfold report, finish; cbn [fst snd];
  repeat match goal with H : is_Exception _ = _ |- _ => rewrite H end;
  apply (f_equal2 pair); [py_same|];
  apply State_eq; py_proj; rewrite <- ?app_assoc, ?app_nil_r; cbn [app]; py_same.

(** Symbolic execution of an operation after its opening, given the object
    [l] with validated contents. *)
Ltac py_operation Hh' Hvm Hvy op :=
  unfold getitem, try_except, Debate_crew, kickoff, crew_do_train, crew_do_replay,
    crew_do_test, except_Exception, raise;
  py_eval; rewrite ?(lookup_total_correct _ _ _ Hh'), ?Hvm;
  py_eval; rewrite ?(lookup_total_correct _ _ _ Hh'), ?Hvy;
  py_eval; rewrite ?(lookup_total_correct _ _ _ Hh');
  let e := fresh "e" in
  let He := fresh "He" in
  destruct (debate_crew _) as [e|]; py_eval;
  [ destruct (is_Exception e) eqn:He; py_eval; py_done
  | rewrite ?(lookup_total_correct _ _ _ Hh');
    destruct op as [? [?|e]]; py_eval;
    [ py_done | destruct (is_Exception e) eqn:He; py_eval; py_done ] ].

Lemma run_spec (crew : Crew) (inputs : option loc) (s : State) (m : dict) :
  supplied s inputs m ->
  exists (l : loc) (h' : gmap loc dict),
    let d := validated (year s) m in
    run crew inputs s =
      (finish (outcome crew (crew_kickoff crew d).2),
       mkState (crew_heap crew l (crew_kickoff crew d).1 h') (year s)
               (stdout s ++ run_output crew d) (stderr s)
               (calls s ++ crew_calls crew (CallKickoff l d))) /\
    h' !! l = Some d /\ origin s inputs l /\ frame l (heap s) h'.
Proof.
  intros Hs. unfold run.
  match goal with
  | |- context [mbind (fun l0 => mbind ?K (validate_inputs l0)) _] =>
      destruct (prologue_run inputs K s m Hs) as (l & h' & Hrun & Hh' & Hor & Hfr)
  end.
  exists l, h'. cbv zeta. split; [|done].
  destruct (validated_truthy_motion (year s) m) as (vm & Hvm & _).
  destruct (validated_truthy_year (year s) m) as (vy & Hvy & _).
  rewrite Hrun. unfold run_output, outcome, crew_calls, crew_heap, run_prefix.
  rewrite (lookup_total_correct _ _ _ Hvm), (lookup_total_correct _ _ _ Hvy).
  py_operation Hh' Hvm Hvy (crew_kickoff crew (validated (year s) m)).
Qed.

Lemma train_spec (crew : Crew) (n : Z) (file : string) (inputs : option loc)
    (s : State) (m : dict) :
  supplied s inputs m ->
  exists (l : loc) (h' : gmap loc dict),
    let d := validated (year s) m in
    train crew n file inputs s =
      (finish (outcome crew (crew_train crew n file d).2),
       mkState (crew_heap crew l (crew_train crew n file d).1 h') (year s)
               (stdout s ++ train_output crew n file d) (stderr s)
               (calls s ++ crew_calls crew (CallTrain n file l d))) /\
    h' !! l = Some d /\ origin s inputs l /\ frame l (heap s) h'.
Proof.
  intros Hs. unfold train.
  match goal with
  | |- context [mbind (fun l0 => mbind ?K (validate_inputs l0)) _] =>
      destruct (prologue_run inputs K s m Hs) as (l & h' & Hrun & Hh' & Hor & Hfr)
  end.
  exists l, h'. cbv zeta. split; [|done].
  destruct (validated_truthy_motion (year s) m) as (vm & Hvm & _).
  rewrite Hrun. unfold train_output, outcome, crew_calls, crew_heap, train_prefix.
  rewrite (lookup_total_correct _ _ _ Hvm).
  py_operation Hh' Hvm Hvm (crew_train crew n file (validated (year s) m)).
Qed.

Lemma test_spec (crew : Crew) (n : Z) (llm : string) (inputs : option loc)
    (s : State) (m : dict) :
  supplied s inputs m ->
  exists (l : loc) (h' : gmap loc dict),
    let d := validated (year s) m in
    test crew n llm inputs s =
      (finish (outcome crew (crew_test crew n llm d).2),
       mkState (crew_heap crew l (crew_test crew n llm d).1 h') (year s)
               (stdout s ++ test_output crew n llm d) (stderr s)
               (calls s ++ crew_calls crew (CallTest n llm l d))) /\
    h' !! l = Some d /\ origin s inputs l /\ frame l (heap s) h'.
Proof.
  intros Hs. unfold test.
  match goal with
  | |- context [mbind (fun l0 => mbind ?K (validate_inputs l0)) _] =>
      destruct (prologue_run inputs K s m Hs) as (l & h' & Hrun & Hh' & Hor & Hfr)
  end.
  exists l, h'. cbv zeta. split; [|done].
  destruct (validated_truthy_motion (year s) m) as (vm & Hvm & _).
  rewrite Hrun. unfold test_output, outcome, crew_calls, crew_heap, test_prefix.
  rewrite (lookup_total_correct _ _ _ Hvm).
  py_operation Hh' Hvm Hvm (crew_test crew n llm (validated (year s) m)).
Qed.

Lemma replay_spec (crew : Crew) (task : pyval) (s : State) :
  replay crew task s =
    (finish (outcome crew (crew_replay crew task)),
     mkState (heap s) (year s) (stdout s ++ replay_output crew task) (stderr s)
             (calls s ++ crew_calls crew (CallReplay task))).
Proof.
  unfold replay, replay_output, outcome, crew_calls, replay_prefix.
  unfold try_except, Debate_crew, crew_do_replay, except_Exception, raise.
  py_eval.
  destruct (debate_crew crew) as [e|]; py_eval.
  - destruct (is_Exception e) eqn:He; py_eval; py_done.
  - destruct (crew_replay crew task) as [res|e]; py_eval.
    + py_done.
    + destruct (is_Exception e) eqn:He; py_eval; py_done.
Qed.

(** ** [main] *)

Lemma main_clauses_run (r : Res unit) (s s' : State) (body : M unit) :
  body s = (r, s') ->
  try_except body main_clauses s =
    (handled r,
     mkState (heap s') (year s') (stdout s' ++ handler_lines r) (stderr s') (calls s')).
Proof.
  intros Hb. unfold try_except. rewrite Hb.
  destruct r as [[]|e]; cbn [handled handler_lines]; unfold cancel_line, fatal_prefix.
  - rewrite app_nil_r. by destruct s'.
  - unfold main_clauses.
    destruct (is_KeyboardInterrupt e); cbn [orb].
    + unfold sys_exit, raise. py_eval. by py_done.
    + destruct (is_Exception e).
      * unfold sys_exit, raise. py_eval. by py_done.
      * rewrite app_nil_r. by destruct s'.
Qed.

Lemma cli_inputs_valid (y : Z) (args : Namespace) :
  validated y (cli_inputs y args) = cli_inputs y args.
Proof.
  unfold cli_inputs. destruct (truthy (py_opt (motion args))) eqn:Hm.
  - apply validated_id.
    + by rewrite lookup_insert_eq.
    + rewrite lookup_insert_ne by done. rewrite default_inputs_year. apply truthy_pretty.
  - apply validated_default_inputs.
Qed.

(** [main] up to its [try] statement: a new mapping object with the
    contents [cli_inputs]. *)
Lemma main_opening {A} (args : Namespace) (k : loc -> M A) (s : State) :
  (inputs ← get_default_inputs;
   (if truthy (py_opt (motion args))
    then setitem inputs "motion" (py_opt (motion args))
    else ret tt);;
   k inputs) s =
  k (fresh (dom (heap s)))
    (set_heap (<[fresh (dom (heap s)) := cli_inputs (year s) args]> (heap s)) s).
Proof.
  rewrite bind_run, get_default_inputs_run. unfold cli_inputs.
  destruct (truthy (py_opt (motion args))).
  - rewrite bind_run. unfold setitem. py_eval.
    by rewrite lookup_total_insert_eq, insert_insert_eq.
  - by rewrite bind_run.
Qed.


Ltac py_action Hact :=
  rewrite Hact;
  repeat match goal with
         | |- context [String.eqb ?a ?b] =>
             let v := eval vm_compute in (String.eqb a b) in
             change (String.eqb a b) with v
         end;
  cbv iota.

Lemma main_body_run (crew : Crew) (args : Namespace) (s : State) :
  action args = "run" ->
  let l := fresh (dom (heap s)) in
  let d := cli_inputs (year s) args in
  let r := finish (outcome crew (crew_kickoff crew d).2) in
  exists h' : gmap loc dict,
    main_body crew args s =
      (handled r,
       mkState h' (year s) (stdout s ++ run_output crew d ++ handler_lines r)
               (stderr s) (calls s ++ crew_calls crew (CallKickoff l d))).
Proof.
  intros Hact l d r. unfold main_body. rewrite main_opening. fold l d.
  py_action Hact.
  destruct (run_spec crew (Some l) (set_heap (<[l:=d]> (heap s)) s) d)
    as (l' & h' & Hrun & _ & -> & _); [apply lookup_insert_eq|].
  cbn [year set_heap] in Hrun.
  rewrite !(cli_inputs_valid (year s) args : validated (year s) d = d) in Hrun.
  rewrite (main_clauses_run _ _ _ _ Hrun). fold r.
  eexists. apply (f_equal2 pair); [done|].
  apply State_eq; py_proj; rewrite <- ?app_assoc; done.
Qed.

Lemma main_body_train (crew : Crew) (args : Namespace) (s : State) :
  action args = "train" ->
  let l := fresh (dom (heap s)) in
  let d := cli_inputs (year s) args in
  let r := finish (outcome crew (crew_train crew (iterations args) (filename args) d).2) in
  exists h' : gmap loc dict,
    main_body crew args s =
      (handled r,
       mkState h' (year s)
               (stdout s ++ train_output crew (iterations args) (filename args) d
                  ++ handler_lines r)
               (stderr s)
               (calls s ++ crew_calls crew
                             (CallTrain (iterations args) (filename args) l d))).
Proof.
  intros Hact l d r. unfold main_body. rewrite main_opening. fold l d.
  py_action Hact.
  destruct (train_spec crew (iterations args) (filename args) (Some l)
              (set_heap (<[l:=d]> (heap s)) s) d)
    as (l' & h' & Hrun & _ & -> & _); [apply lookup_insert_eq|].
  cbn [year set_heap] in Hrun.
  rewrite !(cli_inputs_valid (year s) args : validated (year s) d = d) in Hrun.
  rewrite (main_clauses_run _ _ _ _ Hrun). fold r.
  eexists. apply (f_equal2 pair); [done|].
  apply State_eq; py_proj; rewrite <- ?app_assoc; done.
Qed.

Lemma main_body_test (crew : Crew) (args : Namespace) (s : State) :
  action args = "test" ->
  let l := fresh (dom (heap s)) in
  let d := cli_inputs (year s) args in
  let r := finish (outcome crew (crew_test crew (iterations args) (eval_llm args) d).2) in
  exists h' : gmap loc dict,
    main_body crew args s =
      (handled r,
       mkState h' (year s)
               (stdout s ++ test_output crew (iterations args) (eval_llm args) d
                  ++ handler_lines r)
               (stderr s)
               (calls s ++ crew_calls crew
                             (CallTest (iterations args) (eval_llm args) l d))).
Proof.
  intros Hact l d r. unfold main_body. rewrite main_opening. fold l d.
  py_action Hact.
  destruct (test_spec crew (iterations args) (eval_llm args) (Some l)
              (set_heap (<[l:=d]> (heap s)) s) d)
    as (l' & h' & Hrun & _ & -> & _); [apply lookup_insert_eq|].
  cbn [year set_heap] in Hrun.
  rewrite !(cli_inputs_valid (year s) args : validated (year s) d = d) in Hrun.
  rewrite (main_clauses_run _ _ _ _ Hrun). fold r.
  eexists. apply (f_equal2 pair); [done|].
  apply State_eq; py_proj; rewrite <- ?app_assoc; done.
Qed.

Lemma main_body_replay_missing (crew : Crew) (args : Namespace) (s : State) :
  action args = "replay" ->
  truthy (py_opt (task_id args)) = false ->
  exists h' : gmap loc dict,
    main_body crew args s =
      (Raise (mkExc (SystemExit 1) (pretty 1)),
       mkState h' (year s) (stdout s ++ [Text task_id_required]) (stderr s) (calls s)).
Proof.
  intros Hact Htask. unfold main_body. rewrite main_opening.
  py_action Hact. rewrite Htask. cbn [negb].
  erewrite main_clauses_run.
  2:{ unfold sys_exit, raise. py_eval. reflexivity. }
  cbn [handled handler_lines is_KeyboardInterrupt is_Exception exc_class orb].
  eexists. apply (f_equal2 pair); [done|].
  apply State_eq; py_proj; rewrite ?app_nil_r; done.
Qed.

Lemma main_body_replay (crew : Crew) (args : Namespace) (s : State) :
  action args = "replay" ->
  truthy (py_opt (task_id args)) = true ->
  let task := py_opt (task_id args) in
  let r := finish (outcome crew (crew_replay crew task)) in
  exists h' : gmap loc dict,
    main_body crew args s =
      (handled r,
       mkState h' (year s) (stdout s ++ replay_output crew task ++ handler_lines r)
               (stderr s) (calls s ++ crew_calls crew (CallReplay task))).
Proof.
  intros Hact Htask task r. unfold main_body. rewrite main_opening.
  py_action Hact. rewrite Htask. cbn [negb].
  erewrite main_clauses_run.
  2:{ rewrite bind_run. unfold ret at 1. apply replay_spec. }
  fold task r.
  eexists. apply (f_equal2 pair); [done|].
  apply State_eq; py_proj; rewrite <- ?app_assoc; done.
Qed.

(** ** The process *)

Lemma parsed_not_alone (argv : list string) (args : Namespace) :
  parse_args (tail argv) = Some (Parsed args) -> (length argv =? 1)%nat = false.
Proof.
  destruct argv as [|prog [|a rest]]; [done| |done].
  by vm_compute.
Qed.

Lemma process_parsed (crew : Crew) (argv : list string) (args : Namespace) (s : State) :
  parse_args (tail argv) = Some (Parsed args) ->
  process crew argv s = Some (interpreter (main_body crew args) s).
Proof.
  intros Hp. unfold process, dunder_main, main.
  rewrite (parsed_not_alone _ _ Hp), Hp. reflexivity.
Qed.

Lemma process_alone (crew : Crew) (prog : string) (s : State) :
  process crew [prog] s =
    Some (interpreter
            (print "Running debate crew with default settings...";; run crew None) s).
Proof. reflexivity. Qed.

(** ** The command line: an option that is not given keeps its default *)

Lemma parse_loop_keeps (o : Opt) (P : Namespace -> Prop) :
  (forall v ns, P ns -> P (set_action v ns)) ->
  (forall o' v ns ns',
     Opt_eqb o o' = false -> store o' v ns = Some (Some ns') -> P ns -> P ns') ->
  forall toks ns seen extras ns',
    existsb (is_opt o) toks = false ->
    P ns ->
    parse_loop toks ns seen extras = Some (Parsed ns') ->
    P ns'.
Proof.
  intros Hact Hstore toks.
  assert (forall n toks, (length toks < n)%nat ->
            forall ns seen extras ns',
              existsb (is_opt o) toks = false -> P ns ->
              parse_loop toks ns seen extras = Some (Parsed ns') -> P ns') as H;
    [|by apply (H (S (length toks)) toks); lia].
  clear toks. induction n as [|n IH]; [lia|].
  intros [|t rest] Hlen ns seen extras ns' Hno HP Hrun.
  - destruct seen, extras; cbn in Hrun; by simplify_eq.
  - cbn [existsb] in Hno. apply orb_false_iff in Hno as [Ht Hno].
    cbn [length] in Hlen.
    destruct t as [v|o' os [v|]|v| |]; cbn [parse_loop] in Hrun.
    + destruct seen.
      * eapply (IH rest); [lia|done|done|done].
      * destruct (is_choice v); [|done].
        eapply (IH rest); [lia|done|by apply Hact|done].
    + cbn [is_opt] in Ht.
      destruct o'; try (destruct (_ && _) in Hrun; done);
        (destruct (store _ v ns) as [[ns1|]|] eqn:Hst; [|done|done];
         eapply (IH rest); [lia|done|by eapply Hstore|done]).
    + cbn [is_opt] in Ht.
      destruct o'; [done|..];
        (destruct rest as [|[v| | | |] rest']; try done;
         destruct (store _ v ns) as [[ns1|]|] eqn:Hst; [|done|done];
         cbn [existsb is_opt] in Hno; cbn [length] in Hlen;
         eapply (IH rest'); [lia|done|by eapply Hstore|done]).
    + eapply (IH rest); [lia|done|done|done].
    + done.
    + done.
Qed.

Lemma flag_given_tokens (o : Opt) (args : list string) :
  existsb (is_opt o) (map parse_optional args) = flag_given o args.
Proof.
  unfold flag_given. induction args as [|a args IH]; [done|].
  cbn [map existsb]. by rewrite IH.
Qed.

Lemma parse_args_keeps (o : Opt) (P : Namespace -> Prop) (args : list string)
    (ns : Namespace) :
  (forall v ns, P ns -> P (set_action v ns)) ->
  (forall o' v ns ns',
     Opt_eqb o o' = false -> store o' v ns = Some (Some ns') -> P ns -> P ns') ->
  flag_given o args = false ->
  P default_namespace ->
  parse_args args = Some (Parsed ns) ->
  P ns.
Proof.
  intros Hact Hstore Hno HP. unfold parse_args.
  destruct (existsb (String.eqb "--") args); [done|].
  destruct (existsb is_ambiguous (map parse_optional args)); [done|].
  apply parse_loop_keeps with (o := o); [done|done| |done].
  by rewrite flag_given_tokens.
Qed.

Lemma store_inv (o : Opt) (v : string) (ns ns' : Namespace) :
  store o v ns = Some (Some ns') ->
  action ns' = action ns /\
  (Opt_eqb OIterations o = false -> iterations ns' = iterations ns) /\
  (Opt_eqb OTaskId o = false -> task_id ns' = task_id ns).
Proof.
  destruct o; cbn; intros H; simplify_eq; try done.
  all: unfold get_values in H; destruct (String.eqb v "--"); try done;
    try (destruct (py_int v)); by simplify_eq.
Qed.

(** Without [--iterations] on the command line, [args.iterations] is 5. *)
Lemma iterations_default (args : list string) (ns : Namespace) :
  flag_given OIterations args = false ->
  parse_args args = Some (Parsed ns) ->
  iterations ns = 5.
Proof.
  intros Hno. apply (parse_args_keeps OIterations (fun ns => iterations ns = 5)); try done.
  intros o' v ns1 ns2 Ho Hst <-. by apply (store_inv _ _ _ _ Hst).
Qed.

(** Without [--task-id] on the command line, [args.task_id] is [None]. *)
Lemma task_id_default (args : list string) (ns : Namespace) :
  flag_given OTaskId args = false ->
  parse_args args = Some (Parsed ns) ->
  task_id ns = None.
Proof.
  intros Hno. apply (parse_args_keeps OTaskId (fun ns => task_id ns = None)); try done.
  intros o' v ns1 ns2 Ho Hst <-. by apply (store_inv _ _ _ _ Hst).
Qed.

(** * The claims *)

Lemma not_supplied_motion (s : State) (inputs : option loc) :
  not_supplied s inputs "motion" ->
  exists m, supplied s inputs m /\
            validated (year s) m !! "motion" = Some (PyStr default_motion).
Proof.
  destruct inputs as [l|]; cbn [not_supplied supplied].
  - intros (m & Hl & Hm). exists m. split; [done|]. by apply validated_motion_default.
  - intros _. eexists. split; [done|].
    by rewrite validated_default_inputs, default_inputs_motion.
Qed.

Lemma not_supplied_year (s : State) (inputs : option loc) :
  not_supplied s inputs "current_year" ->
  exists m, supplied s inputs m /\
            validated (year s) m !! "current_year" = Some (PyStr (pretty (year s))).
Proof.
  destruct inputs as [l|]; cbn [not_supplied supplied].
  - intros (m & Hl & Hm). exists m. split; [done|]. by apply validated_year_default.
  - intros _. eexists. split; [done|].
    by rewrite validated_default_inputs, default_inputs_year.
Qed.

(** C1: when no motion is supplied to [run], [train] or [test] (the inputs
    mapping is absent, or its ['motion'] key is missing or empty), the
    operation returns, and the mapping it passes to the delegated operation
    has ['motion'] equal to the fixed default sentence.  The delegated
    operation is called once, unless the crew object could not be built, in
    which case nothing is called ([crew_calls]). *)
Theorem C1_default_motion (crew : Crew) (inputs : option loc) (s : State) :
  not_supplied s inputs "motion" ->
  (exists l d r s',
      run crew inputs s = (r, s') /\
      calls s' = calls s ++ crew_calls crew (CallKickoff l d) /\
      d !! "motion" = Some (PyStr "AI LLMs will significantly improve human productivity")) /\
  (forall n file, exists l d r s',
      train crew n file inputs s = (r, s') /\
      calls s' = calls s ++ crew_calls crew (CallTrain n file l d) /\
      d !! "motion" = Some (PyStr "AI LLMs will significantly improve human productivity")) /\
  (forall n llm, exists l d r s',
      test crew n llm inputs s = (r, s') /\
      calls s' = calls s ++ crew_calls crew (CallTest n llm l d) /\
      d !! "motion" = Some (PyStr "AI LLMs will significantly improve human productivity")).
Proof.
  intros Hno. destruct (not_supplied_motion s inputs Hno) as (m & Hs & Hm).
  split; [|split].
  - destruct (run_spec crew inputs s m Hs) as (l & h' & Hrun & _).
    exists l, (validated (year s) m). eexists _, _. split; [exact Hrun|]. by split.
  - intros n file.
    destruct (train_spec crew n file inputs s m Hs) as (l & h' & Hrun & _).
    exists l, (validated (year s) m). eexists _, _. split; [exact Hrun|]. by split.
  - intros n llm.
    destruct (test_spec crew n llm inputs s m Hs) as (l & h' & Hrun & _).
    exists l, (validated (year s) m). eexists _, _. split; [exact Hrun|]. by split.
Qed.

Lemma C1_default_motion_witness :
  not_supplied caller_state (Some 1%positive) "motion" /\
  exists l d r s',
    run (quiet_crew "done") (Some 1%positive) caller_state = (r, s') /\
    calls s' = [CallKickoff l d] /\
    d !! "motion" = Some (PyStr default_motion).
Proof.
  assert (not_supplied caller_state (Some 1%positive) "motion") as H.
  { exists ∅. split; reflexivity. }
  split; [exact H|].
  destruct (C1_default_motion (quiet_crew "done") (Some 1%positive) caller_state H)
    as [(l & d & r & s' & Hrun & Hcalls & Hd) _].
  exists l, d, r, s'. split; [exact Hrun|]. split; [exact Hcalls|exact Hd].
Defined.

(** C2: when no current year is supplied to [run], [train] or [test], the
    mapping passed to the delegated operation has ['current_year'] equal to
    the string form of the year the clock shows at the invocation. *)
Theorem C2_default_current_year (crew : Crew) (inputs : option loc) (s : State) :
  not_supplied s inputs "current_year" ->
  (exists l d r s',
      run crew inputs s = (r, s') /\
      calls s' = calls s ++ crew_calls crew (CallKickoff l d) /\
      d !! "current_year" = Some (PyStr (pretty (year s)))) /\
  (forall n file, exists l d r s',
      train crew n file inputs s = (r, s') /\
      calls s' = calls s ++ crew_calls crew (CallTrain n file l d) /\
      d !! "current_year" = Some (PyStr (pretty (year s)))) /\
  (forall n llm, exists l d r s',
      test crew n llm inputs s = (r, s') /\
      calls s' = calls s ++ crew_calls crew (CallTest n llm l d) /\
      d !! "current_year" = Some (PyStr (pretty (year s)))).
Proof.
  intros Hno. destruct (not_supplied_year s inputs Hno) as (m & Hs & Hm).
  split; [|split].
  - destruct (run_spec crew inputs s m Hs) as (l & h' & Hrun & _).
    exists l, (validated (year s) m). eexists _, _. split; [exact Hrun|]. by split.
  - intros n file.
    destruct (train_spec crew n file inputs s m Hs) as (l & h' & Hrun & _).
    exists l, (validated (year s) m). eexists _, _. split; [exact Hrun|]. by split.
  - intros n llm.
    destruct (test_spec crew n llm inputs s m Hs) as (l & h' & Hrun & _).
    exists l, (validated (year s) m). eexists _, _. split; [exact Hrun|]. by split.
Qed.

Lemma C2_default_current_year_witness :
  not_supplied caller_state (Some 1%positive) "current_year" /\
  exists l d r s',
    test (quiet_crew "done") 3 "openai/gpt-4o-mini" (Some 1%positive) caller_state = (r, s') /\
    calls s' = [CallTest 3 "openai/gpt-4o-mini" l d] /\
    d !! "current_year" = Some (PyStr "2025").
Proof.
  assert (not_supplied caller_state (Some 1%positive) "current_year") as H.
  { exists ∅. split; reflexivity. }
  split; [exact H|].
  destruct (C2_default_current_year (quiet_crew "done") (Some 1%positive) caller_state H)
    as (_ & _ & Htest).
  destruct (Htest 3 "openai/gpt-4o-mini") as (l & d & r & s' & Hrun & Hcalls & Hd).
  exists l, d, r, s'. split; [exact Hrun|]. split; [exact Hcalls|exact Hd].
Defined.

(** C10: [validate_inputs] is idempotent, its result has non-empty
    ['motion'] and ['current_year'], and it keeps every other key.  On a
    mapping object [l] with contents [m] it returns [l] itself, now with
    contents [m1]; a second call on the result, whatever the clock shows by
    then, returns [l] again and changes nothing. *)
Theorem C10_validate_inputs_idempotent (l : loc) (s : State) (m : dict) :
  heap s !! l = Some m ->
  exists (s1 : State) (m1 : dict),
    validate_inputs l s = (Ok l, s1) /\
    heap s1 !! l = Some m1 /\
    (forall y', validate_inputs l (set_year y' s1) = (Ok l, set_year y' s1)) /\
    (exists v, m1 !! "motion" = Some v /\ truthy v = true) /\
    (exists v, m1 !! "current_year" = Some v /\ truthy v = true) /\
    (forall k, k <> "motion" -> k <> "current_year" -> m1 !! k = m !! k).
Proof.
  intros Hl. destruct (validate_inputs_run l s m Hl) as (h' & Hrun & Hh' & _).
  exists (set_heap h' s), (validated (year s) m).
  destruct (validated_truthy_motion (year s) m) as (vm & Hvm & Tvm).
  destruct (validated_truthy_year (year s) m) as (vy & Hvy & Tvy).
  split; [done|]. split; [done|]. split.
  - intros y'. apply validate_inputs_valid with (m := validated (year s) m).
    + done.
    + by rewrite Hvm.
    + by rewrite Hvy.
  - split; [eauto|]. split; [eauto|]. intros k. apply validated_other.
Qed.

Lemma C10_validate_inputs_idempotent_witness :
  heap caller_state !! 1%positive = Some ∅ /\
  exists (s1 : State) (m1 : dict),
    validate_inputs 1%positive caller_state = (Ok 1%positive, s1) /\
    heap s1 !! 1%positive = Some m1 /\
    validate_inputs 1%positive s1 = (Ok 1%positive, s1).
Proof.
  assert (heap caller_state !! 1%positive = Some ∅) as H by reflexivity.
  split; [exact H|].
  destruct (C10_validate_inputs_idempotent 1%positive caller_state ∅ H)
    as (s1 & m1 & Hrun & Hm1 & Hagain & _).
  exists s1, m1. split; [exact Hrun|]. split; [exact Hm1|].
  specialize (Hagain (year s1)). destruct s1. exact Hagain.
Defined.

(** C9, as stated, fails: [run] on a caller's empty mapping leaves the
    caller's object filled with the defaults. *)
Lemma C9_counterexample :
  exists r s',
    run (quiet_crew "done") (Some 1%positive) caller_state = (r, s') /\
    heap caller_state !! 1%positive = Some ∅ /\
    heap s' !! 1%positive = Some (default_inputs 2025) /\
    heap s' !! 1%positive <> heap caller_state !! 1%positive.
Proof.
  eexists _, _. split; [vm_compute; reflexivity|].
  split; [reflexivity|]. split; [vm_compute; reflexivity|].
  vm_compute. discriminate.
Qed.

(** C9, amended: the input mapping is passed by reference.  [run], [train]
    and [test] validate the caller's own object [l] in place and hand that
    very object to the delegated operation, with the validated contents [d];
    afterwards the caller's object holds what the delegated operation left in
    it ([d] itself when the crew could not be built), and every other object
    is as before.  Validation changes no key other than ['motion'] and
    ['current_year'], and keeps each of these two when it is non-empty. *)
Theorem C9_inputs_by_reference (crew : Crew) (l : loc) (s : State) (m : dict) :
  heap s !! l = Some m ->
  let d := validated (year s) m in
  (exists r s',
      run crew (Some l) s = (r, s') /\
      calls s' = calls s ++ crew_calls crew (CallKickoff l d) /\
      heap s' !! l = Some (match debate_crew crew with
                           | None => (crew_kickoff crew d).1
                           | Some _ => d
                           end) /\
      frame l (heap s) (heap s')) /\
  (forall n file, exists r s',
      train crew n file (Some l) s = (r, s') /\
      calls s' = calls s ++ crew_calls crew (CallTrain n file l d) /\
      heap s' !! l = Some (match debate_crew crew with
                           | None => (crew_train crew n file d).1
                           | Some _ => d
                           end) /\
      frame l (heap s) (heap s')) /\
  (forall n llm, exists r s',
      test crew n llm (Some l) s = (r, s') /\
      calls s' = calls s ++ crew_calls crew (CallTest n llm l d) /\
      heap s' !! l = Some (match debate_crew crew with
                           | None => (crew_test crew n llm d).1
                           | Some _ => d
                           end) /\
      frame l (heap s) (heap s')) /\
  (forall k, k <> "motion" -> k <> "current_year" -> d !! k = m !! k) /\
  (truthy (default PyNone (m !! "motion")) = true -> d !! "motion" = m !! "motion") /\
  (truthy (default PyNone (m !! "current_year")) = true ->
   d !! "current_year" = m !! "current_year").
Proof.
  intros Hl d.
  assert (forall d' h', h' !! l = Some d -> frame l (heap s) h' ->
            crew_heap crew l d' h' !! l =
              Some (match debate_crew crew with None => d' | Some _ => d end) /\
            frame l (heap s) (crew_heap crew l d' h')) as Hheap.
  { intros d' h' Hh' Hfr. unfold crew_heap. destruct (debate_crew crew).
    - done.
    - split; [by rewrite lookup_insert_eq|].
      intros l' x Hne Hx. rewrite lookup_insert_ne by done. by apply Hfr. }
  split; [|split; [|split; [|split; [|split]]]].
  - destruct (run_spec crew (Some l) s m Hl) as (l' & h' & Hrun & Hh' & -> & Hfr).
    eexists _, _. split; [exact Hrun|]. split; [done|]. by apply Hheap.
  - intros n file.
    destruct (train_spec crew n file (Some l) s m Hl) as (l' & h' & Hrun & Hh' & -> & Hfr).
    eexists _, _. split; [exact Hrun|]. split; [done|]. by apply Hheap.
  - intros n llm.
    destruct (test_spec crew n llm (Some l) s m Hl) as (l' & h' & Hrun & Hh' & -> & Hfr).
    eexists _, _. split; [exact Hrun|]. split; [done|]. by apply Hheap.
  - intros k. apply validated_other.
  - apply validated_motion_kept.
  - apply validated_year_kept.
Qed.

Lemma C9_inputs_by_reference_witness :
  heap caller_state !! 1%positive = Some ∅ /\
  exists r s',
    run (quiet_crew "done") (Some 1%positive) caller_state = (r, s') /\
    calls s' = [CallKickoff 1%positive (validated 2025 ∅)] /\
    heap s' !! 1%positive = Some (validated 2025 ∅).
Proof.
  assert (heap caller_state !! 1%positive = Some ∅) as H by reflexivity.
  split; [exact H|].
  destruct (C9_inputs_by_reference (quiet_crew "done") 1%positive caller_state ∅ H)
    as [(r & s' & Hrun & Hcalls & Hheap & _) _].
  exists r, s'. split; [exact Hrun|]. split; [exact Hcalls|exact Hheap].
Defined.

(** ** Claims about the command line *)

Lemma interpreter_run (script : M unit) (s s' : State) (r : Res unit) :
  script s = (r, s') ->
  interpreter script s =
    match r with
    | Ok _ => (Exited 0, s')
    | Raise e => unhandled e s'
    end.
Proof. intros H. unfold interpreter. by rewrite H. Qed.

(** C3: a [replay] invocation whose [--task-id] is absent, or given with the
    empty string as its value, prints the error message, exits with status 1
    and makes no delegated call. *)
Theorem C3_replay_requires_task_id (crew : Crew) (argv : list string)
    (args : Namespace) (s : State) :
  parse_args (tail argv) = Some (Parsed args) ->
  action args = "replay" ->
  flag_given OTaskId (tail argv) = false \/ task_id args = Some "" ->
  exists s',
    process crew argv s = Some (Exited 1, s') /\
    stdout s' = stdout s ++ [Text "❌ Error: task-id is required for replay action"] /\
    stderr s' = stderr s /\
    calls s' = calls s.
Proof.
  intros Hp Hact Htask.
  assert (truthy (py_opt (task_id args)) = false) as Hfalsy.
  { destruct Htask as [Hno| ->]; [|done]. by rewrite (task_id_default _ _ Hno Hp). }
  destruct (main_body_replay_missing crew args s Hact Hfalsy) as (h' & Hrun).
  rewrite (process_parsed _ _ _ _ Hp), (interpreter_run _ _ _ _ Hrun).
  cbn [exc_class]. eexists. split; [reflexivity|]. done.
Qed.

Lemma C3_replay_requires_task_id_witness :
  exists s',
    process (quiet_crew "done") ["example_main.py"; "replay"] (initial_state 2025)
      = Some (Exited 1, s') /\
    stdout s' = [Text task_id_required] /\
    calls s' = [].
Proof.
  destruct (C3_replay_requires_task_id (quiet_crew "done")
              ["example_main.py"; "replay"]
              (mkNamespace "replay" None 5 "training_results.json"
                           "openai/gpt-4o-mini" None)
              (initial_state 2025))
    as (s' & Hrun & Hout & _ & Hcalls).
  - vm_compute. reflexivity.
  - reflexivity.
  - left. vm_compute. reflexivity.
  - exists s'. split; [exact Hrun|]. split; [exact Hout|exact Hcalls].
Defined.

(** C6: a [train] or [test] invocation without [--iterations] calls the
    delegated training or evaluation operation with an iteration count of 5
    (once; not at all when the crew object could not be built). *)
Theorem C6_iterations_default (crew : Crew) (argv : list string)
    (args : Namespace) (s : State) :
  parse_args (tail argv) = Some (Parsed args) ->
  flag_given OIterations (tail argv) = false ->
  (action args = "train" ->
   exists t s' l d,
     process crew argv s = Some (t, s') /\
     calls s' = calls s ++ crew_calls crew (CallTrain 5 (filename args) l d)) /\
  (action args = "test" ->
   exists t s' l d,
     process crew argv s = Some (t, s') /\
     calls s' = calls s ++ crew_calls crew (CallTest 5 (eval_llm args) l d)).
Proof.
  intros Hp Hno. pose proof (iterations_default _ _ Hno Hp) as Hit.
  rewrite (process_parsed _ _ _ _ Hp). split; intros Hact.
  - destruct (main_body_train crew args s Hact) as (h' & Hrun).
    rewrite Hit in Hrun. rewrite (interpreter_run _ _ _ _ Hrun).
    destruct (handled _) as [[]|e]; [|unfold unhandled; destruct (exc_class e) as [| |[n| |text]|]];
      eexists _, _, _, _; (split; [reflexivity|done]).
  - destruct (main_body_test crew args s Hact) as (h' & Hrun).
    rewrite Hit in Hrun. rewrite (interpreter_run _ _ _ _ Hrun).
    destruct (handled _) as [[]|e]; [|unfold unhandled; destruct (exc_class e) as [| |[n| |text]|]];
      eexists _, _, _, _; (split; [reflexivity|done]).
Qed.

Lemma C6_iterations_default_witness :
  (exists t s' l d,
     process (quiet_crew "done") ["example_main.py"; "train"] (initial_state 2025)
       = Some (t, s') /\
     calls s' = [CallTrain 5 "training_results.json" l d]) /\
  (exists t s' l d,
     process (quiet_crew "done") ["example_main.py"; "--motion"; "Tea"; "test"]
       (initial_state 2025) = Some (t, s') /\
     calls s' = [CallTest 5 "openai/gpt-4o-mini" l d]).
Proof.
  split.
  - destruct (C6_iterations_default (quiet_crew "done") ["example_main.py"; "train"]
                (mkNamespace "train" None 5 "training_results.json"
                             "openai/gpt-4o-mini" None)
                (initial_state 2025)) as [Htrain _].
    + vm_compute. reflexivity.
    + vm_compute. reflexivity.
    + exact (Htrain eq_refl).
  - destruct (C6_iterations_default (quiet_crew "done")
                ["example_main.py"; "--motion"; "Tea"; "test"]
                (mkNamespace "test" (Some "Tea") 5 "training_results.json"
                             "openai/gpt-4o-mini" None)
                (initial_state 2025)) as [_ Htest].
    + vm_compute. reflexivity.
    + vm_compute. reflexivity.
    + exact (Htest eq_refl).
Defined.

Lemma cli_inputs_motion (y : Z) (args : Namespace) (v : string) :
  motion args = Some v -> v <> "" ->
  cli_inputs y args =
    <["motion" := PyStr v]> (<["current_year" := PyStr (pretty y)]> ∅).
Proof.
  intros Hm Hv. unfold cli_inputs. rewrite Hm. cbn [py_opt].
  rewrite (proj2 (truthy_PyStr v) Hv). unfold default_inputs.
  by rewrite insert_insert_eq.
Qed.

(** C7, as stated, fails: the bare [--] is a non-empty value, yet with
    [--motion=--] the execute operation receives the default motion.
    [argparse] removes the [--] from the values of the option and stores the
    empty list, which [main] finds false. *)
Lemma C7_counterexample :
  parse_optional "--motion=--" = TOpt OMotion "--motion" (Some "--") /\
  "--" <> "" /\
  parse_args ["run"; "--motion=--"] =
    Some (Parsed (mkNamespace "run" (Some AEmptyList) 5 "training_results.json"
                              "openai/gpt-4o-mini" None)) /\
  exists t s' l,
    process (quiet_crew "done") ["example_main.py"; "run"; "--motion=--"]
      (initial_state 2025) = Some (t, s') /\
    calls s' =
      [CallKickoff l
         (<["motion" := PyStr "AI LLMs will significantly improve human productivity"]>
            (<["current_year" := PyStr "2025"]> ∅))].
Proof.
  split; [reflexivity|]. split; [discriminate|]. split; [reflexivity|].
  eexists _, _, _. split; vm_compute; reflexivity.
Qed.

(** C7, amended: [--motion "Remote work improves productivity" run] passes
    exactly [{motion: "Remote work improves productivity", current_year:
    <this year>}] to the execute operation; and, for [run], [train] and
    [test] alike, a [--motion] value that is stored as a non-empty string
    [v] replaces the default motion while [current_year] keeps its default.
    Every value but the bare [--] is stored as the string it is; for the
    bare [--] the empty list is stored, and the default motion is kept. *)
Theorem C7_motion_override (crew : Crew) (s : State) :
  (forall prog, exists t s' l,
      process crew [prog; "--motion"; "Remote work improves productivity"; "run"] s
        = Some (t, s') /\
      calls s' = calls s ++
        crew_calls crew
          (CallKickoff l (<["motion" := PyStr "Remote work improves productivity"]>
                            (<["current_year" := PyStr (pretty (year s))]> ∅)))) /\
  (forall argv args (v : string),
      parse_args (tail argv) = Some (Parsed args) ->
      motion args = Some v -> v <> "" ->
      let d := <["motion" := PyStr v]> (<["current_year" := PyStr (pretty (year s))]> ∅) in
      (action args = "run" ->
       exists t s' l,
         process crew argv s = Some (t, s') /\
         calls s' = calls s ++ crew_calls crew (CallKickoff l d)) /\
      (action args = "train" ->
       exists t s' l,
         process crew argv s = Some (t, s') /\
         calls s' = calls s ++
           crew_calls crew (CallTrain (iterations args) (filename args) l d)) /\
      (action args = "test" ->
       exists t s' l,
         process crew argv s = Some (t, s') /\
         calls s' = calls s ++
           crew_calls crew (CallTest (iterations args) (eval_llm args) l d))) /\
  (forall (v : string) ns,
      exists ns',
        store OMotion v ns = Some (Some ns') /\
        motion ns' = Some (if String.eqb v "--" then AEmptyList else AStr v)) /\
  (forall argv args,
      parse_args (tail argv) = Some (Parsed args) ->
      motion args = Some AEmptyList ->
      let d := <["motion" := PyStr "AI LLMs will significantly improve human productivity"]>
                 (<["current_year" := PyStr (pretty (year s))]> ∅) in
      (action args = "run" ->
       exists t s' l,
         process crew argv s = Some (t, s') /\
         calls s' = calls s ++ crew_calls crew (CallKickoff l d)) /\
      (action args = "train" ->
       exists t s' l,
         process crew argv s = Some (t, s') /\
         calls s' = calls s ++
           crew_calls crew (CallTrain (iterations args) (filename args) l d)) /\
      (action args = "test" ->
       exists t s' l,
         process crew argv s = Some (t, s') /\
         calls s' = calls s ++
           crew_calls crew (CallTest (iterations args) (eval_llm args) l d))).
Proof.
  assert (forall argv args (v : string),
      parse_args (tail argv) = Some (Parsed args) ->
      motion args = Some v -> v <> "" ->
      let d := <["motion" := PyStr v]> (<["current_year" := PyStr (pretty (year s))]> ∅) in
      (action args = "run" ->
       exists t s' l,
         process crew argv s = Some (t, s') /\
         calls s' = calls s ++ crew_calls crew (CallKickoff l d)) /\
      (action args = "train" ->
       exists t s' l,
         process crew argv s = Some (t, s') /\
         calls s' = calls s ++
           crew_calls crew (CallTrain (iterations args) (filename args) l d)) /\
      (action args = "test" ->
       exists t s' l,
         process crew argv s = Some (t, s') /\
         calls s' = calls s ++
           crew_calls crew (CallTest (iterations args) (eval_llm args) l d))) as Hgen.
  { intros argv args v Hp Hm Hv d.
    rewrite (process_parsed _ _ _ _ Hp).
    pose proof (cli_inputs_motion (year s) args v Hm Hv) as Hd. fold d in Hd.
    split; [|split]; intros Hact.
    - destruct (main_body_run crew args s Hact) as (h' & Hrun).
      rewrite Hd in Hrun. rewrite (interpreter_run _ _ _ _ Hrun).
      destruct (handled _) as [[]|e]; [|unfold unhandled; destruct (exc_class e) as [| |[n| |text]|]];
        eexists _, _, _; (split; [reflexivity|done]).
    - destruct (main_body_train crew args s Hact) as (h' & Hrun).
      rewrite Hd in Hrun. rewrite (interpreter_run _ _ _ _ Hrun).
      destruct (handled _) as [[]|e]; [|unfold unhandled; destruct (exc_class e) as [| |[n| |text]|]];
        eexists _, _, _; (split; [reflexivity|done]).
    - destruct (main_body_test crew args s Hact) as (h' & Hrun).
      rewrite Hd in Hrun. rewrite (interpreter_run _ _ _ _ Hrun).
      destruct (handled _) as [[]|e]; [|unfold unhandled; destruct (exc_class e) as [| |[n| |text]|]];
        eexists _, _, _; (split; [reflexivity|done]). }
  split; [|split; [exact Hgen|split]].
  - intros prog.
    edestruct (Hgen [prog; "--motion"; "Remote work improves productivity"; "run"]
                 (mkNamespace "run" (Some "Remote work improves productivity") 5
                              "training_results.json" "openai/gpt-4o-mini" None)
                 "Remote work improves productivity") as [Hrun _].
    + vm_compute. reflexivity.
    + reflexivity.
    + discriminate.
    + exact (Hrun eq_refl).
  - intros v ns. eexists. split; [reflexivity|]. reflexivity.
  - intros argv args Hp Hm d.
    assert (cli_inputs (year s) args = d) as Hd.
    { unfold cli_inputs. by rewrite Hm. }
    rewrite (process_parsed _ _ _ _ Hp).
    split; [|split]; intros Hact.
    + destruct (main_body_run crew args s Hact) as (h' & Hrun).
      rewrite Hd in Hrun. rewrite (interpreter_run _ _ _ _ Hrun).
      destruct (handled _) as [[]|e];
        [|unfold unhandled; destruct (exc_class e) as [| |[n| |text]|]];
        eexists _, _, _; (split; [reflexivity|done]).
    + destruct (main_body_train crew args s Hact) as (h' & Hrun).
      rewrite Hd in Hrun. rewrite (interpreter_run _ _ _ _ Hrun).
      destruct (handled _) as [[]|e];
        [|unfold unhandled; destruct (exc_class e) as [| |[n| |text]|]];
        eexists _, _, _; (split; [reflexivity|done]).
    + destruct (main_body_test crew args s Hact) as (h' & Hrun).
      rewrite Hd in Hrun. rewrite (interpreter_run _ _ _ _ Hrun).
      destruct (handled _) as [[]|e];
        [|unfold unhandled; destruct (exc_class e) as [| |[n| |text]|]];
        eexists _, _, _; (split; [reflexivity|done]).
Qed.

Lemma C7_motion_override_witness :
  exists t s' l,
    process (quiet_crew "done")
      ["example_main.py"; "train"; "--motion=Tea beats coffee"; "--iterations"; "2"]
      (initial_state 2025) = Some (t, s') /\
    calls s' =
      [CallTrain 2 "training_results.json" l
         (<["motion" := PyStr "Tea beats coffee"]>
            (<["current_year" := PyStr "2025"]> ∅))].
Proof.
  destruct (C7_motion_override (quiet_crew "done") (initial_state 2025))
    as (_ & Hgen & _).
  edestruct (Hgen
               ["example_main.py"; "train"; "--motion=Tea beats coffee"; "--iterations"; "2"]
               (mkNamespace "train" (Some "Tea beats coffee") 2
                            "training_results.json" "openai/gpt-4o-mini" None)
               "Tea beats coffee") as (_ & Htrain & _).
  - vm_compute. reflexivity.
  - reflexivity.
  - discriminate.
  - exact (Htrain eq_refl).
Defined.

(** ** Exceptions from the delegated operation *)

Lemma contains_suffix (prefix t : string) : contains (prefix +:+ t) t.
Proof.
  exists prefix, "". f_equal.
  induction t as [|c t IH]; [done|].
  change (String c t = String c (t +:+ "")). by f_equal.
Qed.

Lemma report_raise {A} (prefix : string) (e : Exc) (lines : A -> list Written) :
  is_Exception e = true ->
  report prefix (Raise e) lines = [Text (prefix +:+ exc_str e)].
Proof. intros He. cbn [report]. by rewrite He. Qed.

Lemma handled_Exception (e : Exc) :
  is_Exception e = true ->
  handled (Raise e) = Raise (mkExc (SystemExit 1) (pretty 1)) /\
  handler_lines (Raise e) = [Text ("❌ Fatal error: " +:+ exc_str e)].
Proof.
  intros He.
  unfold handled, handler_lines, is_KeyboardInterrupt, is_Exception, fatal_prefix in *.
  by destruct (exc_class e).
Qed.

(** C4, as stated, fails.  For an [Exception] the messages go to standard
    output, and nothing is written to standard error.  For an exception that
    is not an [Exception] no line with a prefix is printed at all: after a
    [SystemExit] with code 0 the exit status is 0, a [KeyboardInterrupt]
    gives the cancellation line only, and any other exception passes every
    handler without a line of the dispatcher. *)
Lemma C4_counterexample :
  (exists s',
     process (failing_crew (mkExc StdException "boom")) ["example_main.py"; "run"]
       (initial_state 2025) = Some (Exited 1, s') /\
     stderr s' = [] /\
     In (Text "❌ Error occurred while running the crew: boom") (stdout s') /\
     In (Text "❌ Fatal error: boom") (stdout s')) /\
  (exists s',
     process (failing_crew (mkExc (SystemExit 0) "0")) ["example_main.py"; "run"]
       (initial_state 2025) = Some (Exited 0, s') /\
     stdout s' = run_header (default_inputs 2025) /\
     stderr s' = []) /\
  (exists s',
     process (failing_crew (mkExc KeyboardInterrupt "boom")) ["example_main.py"; "run"]
       (initial_state 2025) = Some (Exited 1, s') /\
     stdout s' = run_header (default_inputs 2025) ++ [Text cancel_line] /\
     stderr s' = []) /\
  (exists s',
     process (failing_crew (mkExc OtherBaseException "boom")) ["example_main.py"; "run"]
       (initial_state 2025) = Some (Uncaught (mkExc OtherBaseException "boom"), s') /\
     stdout s' = run_header (default_inputs 2025) /\
     stderr s' = [Traceback (mkExc OtherBaseException "boom")]).
Proof.
  split; [|split; [|split]].
  - eexists. split; [vm_compute; reflexivity|].
    split; [reflexivity|]. vm_compute. auto 10.
  - eexists. split; [vm_compute; reflexivity|]. split; vm_compute; reflexivity.
  - eexists. split; [vm_compute; reflexivity|]. split; vm_compute; reflexivity.
  - eexists. split; [vm_compute; reflexivity|]. split; vm_compute; reflexivity.
Qed.

(** C4, amended: for every exception [e] of class [Exception] that the
    delegated expression of [run], [train], [replay] or [test] raises, the
    operation prints its prefix followed by the exception text on standard
    output and re-raises [e], and the process ends with a non-zero status.
    When the operation was started from the command line with an action,
    [main] then prints the fatal-error line with the exception text on
    standard output, the process exits with status 1 and nothing is written
    to standard error.  With no arguments [e] reaches the interpreter after
    the line of [run]: its traceback goes to standard error. *)
Theorem C4_exception_reported (crew : Crew) (s : State) (e : Exc) :
  is_Exception e = true ->
  (forall inputs m,
      supplied s inputs m ->
      let d := validated (year s) m in
      (outcome crew (crew_kickoff crew d).2 = Raise e ->
       reraises (run crew inputs) s "❌ Error occurred while running the crew: " e) /\
      (forall n file,
          outcome crew (crew_train crew n file d).2 = Raise e ->
          reraises (train crew n file inputs) s
                   "❌ Error occurred while training the crew: " e) /\
      (forall n llm,
          outcome crew (crew_test crew n llm d).2 = Raise e ->
          reraises (test crew n llm inputs) s
                   "❌ Error occurred while testing the crew: " e)) /\
  (forall task,
      outcome crew (crew_replay crew task) = Raise e ->
      reraises (replay crew task) s "❌ Error occurred while replaying the crew: " e) /\
  (forall argv args,
      parse_args (tail argv) = Some (Parsed args) ->
      let d := cli_inputs (year s) args in
      (action args = "run" ->
       outcome crew (crew_kickoff crew d).2 = Raise e ->
       exits_reporting crew argv s "❌ Error occurred while running the crew: " e) /\
      (action args = "train" ->
       outcome crew (crew_train crew (iterations args) (filename args) d).2 = Raise e ->
       exits_reporting crew argv s "❌ Error occurred while training the crew: " e) /\
      (action args = "replay" ->
       truthy (py_opt (task_id args)) = true ->
       outcome crew (crew_replay crew (py_opt (task_id args))) = Raise e ->
       exits_reporting crew argv s "❌ Error occurred while replaying the crew: " e) /\
      (action args = "test" ->
       outcome crew (crew_test crew (iterations args) (eval_llm args) d).2 = Raise e ->
       exits_reporting crew argv s "❌ Error occurred while testing the crew: " e)) /\
  (forall prog,
      outcome crew (crew_kickoff crew (default_inputs (year s))).2 = Raise e ->
      aborts_reporting crew [prog] s "❌ Error occurred while running the crew: " e) /\
  (forall prefix, contains (prefix +:+ exc_str e) (exc_str e)).
Proof.
  intros He. destruct (handled_Exception e He) as [Hh Hl].
  split; [|split; [|split; [|split]]].
  - intros inputs m Hs d. split; [|split].
    + intros Hout. destruct (run_spec crew inputs s m Hs) as (l & h' & Hrun & _).
      cbv zeta in Hrun. fold d in Hrun. unfold run_output in Hrun.
      rewrite Hout, (report_raise _ _ _ He) in Hrun.
      eexists _, _. split; [exact Hrun|]. done.
    + intros n file Hout.
      destruct (train_spec crew n file inputs s m Hs) as (l & h' & Hrun & _).
      cbv zeta in Hrun. fold d in Hrun. unfold train_output in Hrun.
      rewrite Hout, (report_raise _ _ _ He) in Hrun.
      eexists _, _. split; [exact Hrun|]. done.
    + intros n llm Hout.
      destruct (test_spec crew n llm inputs s m Hs) as (l & h' & Hrun & _).
      cbv zeta in Hrun. fold d in Hrun. unfold test_output in Hrun.
      rewrite Hout, (report_raise _ _ _ He) in Hrun.
      eexists _, _. split; [exact Hrun|]. done.
  - intros task Hout. pose proof (replay_spec crew task s) as Hrun.
    unfold replay_output in Hrun. rewrite Hout, (report_raise _ _ _ He) in Hrun.
    eexists _, _. split; [exact Hrun|]. done.
  - intros argv args Hp d. unfold exits_reporting.
    rewrite (process_parsed _ _ _ _ Hp).
    split; [|split; [|split]].
    + intros Hact Hout. destruct (main_body_run crew args s Hact) as (h' & Hrun).
      fold d in Hrun. unfold run_output in Hrun.
      rewrite Hout, (report_raise _ _ _ He) in Hrun. cbn [finish] in Hrun.
      rewrite Hh, Hl in Hrun. rewrite (interpreter_run _ _ _ _ Hrun). cbn [exc_class].
      rewrite <- ?app_assoc.
      eexists _, _. split; [reflexivity|]. split; reflexivity.
    + intros Hact Hout. destruct (main_body_train crew args s Hact) as (h' & Hrun).
      fold d in Hrun. unfold train_output in Hrun.
      rewrite Hout, (report_raise _ _ _ He) in Hrun. cbn [finish] in Hrun.
      rewrite Hh, Hl in Hrun. rewrite (interpreter_run _ _ _ _ Hrun). cbn [exc_class].
      rewrite <- ?app_assoc.
      eexists _, _. split; [reflexivity|]. split; reflexivity.
    + intros Hact Htask Hout.
      destruct (main_body_replay crew args s Hact Htask) as (h' & Hrun).
      unfold replay_output in Hrun.
      rewrite Hout, (report_raise _ _ _ He) in Hrun. cbn [finish] in Hrun.
      rewrite Hh, Hl in Hrun. rewrite (interpreter_run _ _ _ _ Hrun). cbn [exc_class].
      rewrite <- ?app_assoc.
      eexists _, _. split; [reflexivity|]. split; reflexivity.
    + intros Hact Hout. destruct (main_body_test crew args s Hact) as (h' & Hrun).
      fold d in Hrun. unfold test_output in Hrun.
      rewrite Hout, (report_raise _ _ _ He) in Hrun. cbn [finish] in Hrun.
      rewrite Hh, Hl in Hrun. rewrite (interpreter_run _ _ _ _ Hrun). cbn [exc_class].
      rewrite <- ?app_assoc.
      eexists _, _. split; [reflexivity|]. split; reflexivity.
  - intros prog Hout. unfold aborts_reporting. rewrite process_alone.
    destruct (run_spec crew None
                (add_stdout (Text "Running debate crew with default settings...") s)
                (default_inputs (year s)) eq_refl) as (l0 & h0 & Hrun0 & _).
    cbn [year add_stdout stdout stderr calls heap] in Hrun0.
    rewrite validated_default_inputs in Hrun0.
    unfold run_output in Hrun0.
    rewrite Hout, (report_raise _ _ _ He) in Hrun0. cbn [finish] in Hrun0.
    erewrite interpreter_run; [|rewrite bind_run, print_run; exact Hrun0].
    unfold unhandled. unfold is_Exception in He.
    destruct (exc_class e) as [| |code|]; try discriminate He.
    eexists _, (Text "Running debate crew with default settings..."
                  :: run_header (default_inputs (year s))).
    split; [reflexivity|]. split; [|reflexivity].
    cbn [stdout]. by rewrite <- !app_assoc.
  - intros prefix. apply contains_suffix.
Qed.

Lemma C4_exception_reported_witness :
  is_Exception (mkExc StdException "rate limit") = true /\
  exits_reporting (failing_crew (mkExc StdException "rate limit"))
    ["example_main.py"; "test"] (initial_state 2025)
    "❌ Error occurred while testing the crew: " (mkExc StdException "rate limit").
Proof.
  assert (is_Exception (mkExc StdException "rate limit") = true) as He by reflexivity.
  split; [exact He|].
  destruct (C4_exception_reported (failing_crew (mkExc StdException "rate limit"))
              (initial_state 2025) (mkExc StdException "rate limit") He)
    as (_ & _ & Hcli & _).
  destruct (Hcli ["example_main.py"; "test"]
              (mkNamespace "test" None 5 "training_results.json"
                           "openai/gpt-4o-mini" None))
    as (_ & _ & _ & Htest).
  - vm_compute. reflexivity.
  - apply Htest; reflexivity.
Defined.

(** ** No arguments at all *)

(** C5, as stated, fails: with no arguments the program prints a banner line
    that the [run] action does not print, so the two behaviours differ even
    when the crew succeeds. *)
Lemma C5_counterexample :
  behaviour (process (quiet_crew "done") ["example_main.py"] (initial_state 2025)) <>
  behaviour (process (quiet_crew "done") ["example_main.py"; "run"] (initial_state 2025)).
Proof. vm_compute. discriminate. Qed.

(** C5, amended: with no arguments the program passes the same input mapping
    (default motion, current-year string) to the delegated execute operation
    as the [run] action with default inputs does, and prints what [run]
    prints after one banner line of its own; when the delegated operation
    returns normally, both invocations print nothing more, write nothing to
    standard error and exit with status 0. *)
Theorem C5_zero_arguments_as_run (crew : Crew) (prog : string) (s : State) :
  let d := <["motion" := PyStr "AI LLMs will significantly improve human productivity"]>
             (<["current_year" := PyStr (pretty (year s))]> ∅) in
  exists t0 s0 t1 s1 l more,
    process crew [prog] s = Some (t0, s0) /\
    process crew [prog; "run"] s = Some (t1, s1) /\
    calls s0 = calls s ++ crew_calls crew (CallKickoff l d) /\
    calls s1 = calls s ++ crew_calls crew (CallKickoff l d) /\
    stdout s0 = stdout s ++ [Text "Running debate crew with default settings..."]
                  ++ run_output crew d /\
    stdout s1 = stdout s ++ run_output crew d ++ more /\
    (forall result,
        outcome crew (crew_kickoff crew d).2 = Ok result ->
        t0 = Exited 0 /\ t1 = Exited 0 /\ more = [] /\
        stderr s0 = stderr s /\ stderr s1 = stderr s).
Proof.
  intros d.
  change d with (default_inputs (year s)).
  (* no arguments *)
  rewrite process_alone.
  destruct (run_spec crew None
              (add_stdout (Text "Running debate crew with default settings...") s)
              (default_inputs (year s)) eq_refl)
    as (l0 & h0 & Hrun0 & _ & Hor0 & _).
  cbn [year add_stdout stdout stderr calls heap origin] in Hrun0, Hor0.
  rewrite validated_default_inputs in Hrun0.
  assert ((print "Running debate crew with default settings...";; run crew None) s =
          (finish (outcome crew (crew_kickoff crew (default_inputs (year s))).2),
           mkState (crew_heap crew l0 (crew_kickoff crew (default_inputs (year s))).1 h0)
                   (year s)
                   ((stdout s ++ [Text "Running debate crew with default settings..."])
                      ++ run_output crew (default_inputs (year s)))
                   (stderr s)
                   (calls s ++ crew_calls crew
                                 (CallKickoff l0 (default_inputs (year s)))))) as Hzero.
  { rewrite bind_run, print_run. exact Hrun0. }
  rewrite (interpreter_run _ _ _ _ Hzero).
  (* the run action *)
  rewrite (process_parsed crew [prog; "run"]
             (mkNamespace "run" None 5 "training_results.json" "openai/gpt-4o-mini" None) s)
    by (vm_compute; reflexivity).
  destruct (main_body_run crew
              (mkNamespace "run" None 5 "training_results.json" "openai/gpt-4o-mini" None)
              s eq_refl) as (h1 & Hrun1).
  change (cli_inputs (year s) _) with (default_inputs (year s)) in Hrun1.
  rewrite (interpreter_run _ _ _ _ Hrun1).
  subst l0. rewrite <- ?app_assoc.
  destruct (outcome crew (crew_kickoff crew (default_inputs (year s))).2)
    as [res|e] eqn:Hout; cbn [finish handled handler_lines].
  - eexists _, _, _, _, (fresh (dom (heap s))), [].
    split; [reflexivity|]. split; [reflexivity|].
    cbn [stdout stderr calls]. rewrite app_nil_r. done.
  - destruct e as [[| |[n| |text]|] txt];
      cbn [is_KeyboardInterrupt is_Exception exc_class orb];
      eexists _, _, _, _, (fresh (dom (heap s))), _;
      (split; [reflexivity|]); (split; [reflexivity|]);
      cbn [stdout stderr calls add_stderr]; done.
Qed.

Lemma C5_zero_arguments_as_run_witness :
  exists s0 s1 l,
    process (quiet_crew "done") ["example_main.py"] (initial_state 2025)
      = Some (Exited 0, s0) /\
    process (quiet_crew "done") ["example_main.py"; "run"] (initial_state 2025)
      = Some (Exited 0, s1) /\
    calls s0 = [CallKickoff l (default_inputs 2025)] /\
    calls s1 = [CallKickoff l (default_inputs 2025)] /\
    stdout s0 = Text "Running debate crew with default settings..." :: stdout s1.
Proof.
  destruct (C5_zero_arguments_as_run (quiet_crew "done") "example_main.py"
              (initial_state 2025))
    as (t0 & s0 & t1 & s1 & l & more & H0 & H1 & Hc0 & Hc1 & Ho0 & Ho1 & Hok).
  destruct (Hok "done" eq_refl) as (-> & -> & -> & _).
  exists s0, s1, l. split; [exact H0|]. split; [exact H1|].
  split; [exact Hc0|]. split; [exact Hc1|].
  rewrite Ho0, Ho1, app_nil_r. reflexivity.
Defined.

(** ** Interactive interrupts *)

(** With an action on the command line, an interrupt raised by the delegated
    expression is caught by [main]: the cancellation line is printed and the
    process exits with status 1. *)
Lemma interrupt_with_run_action (crew : Crew) (argv : list string)
    (args : Namespace) (s : State) (e : Exc) :
  parse_args (tail argv) = Some (Parsed args) ->
  action args = "run" ->
  is_KeyboardInterrupt e = true ->
  outcome crew (crew_kickoff crew (cli_inputs (year s) args)).2 = Raise e ->
  exists s',
    process crew argv s = Some (Exited 1, s') /\
    last (stdout s') = Some (Text cancel_line) /\
    stderr s' = stderr s.
Proof.
  intros Hp Hact He Hout.
  destruct (main_body_run crew args s Hact) as (h' & Hrun).
  rewrite Hout in Hrun. cbn [finish handled handler_lines] in Hrun.
  rewrite He in Hrun. cbn [orb] in Hrun.
  rewrite (process_parsed _ _ _ _ Hp), (interpreter_run _ _ _ _ Hrun). cbn [exc_class].
  eexists. split; [reflexivity|]. cbn [stdout stderr]. split; [|done].
  by rewrite !app_assoc, last_snoc.
Qed.

(** C8, at the failing input: with no command-line arguments an interrupt
    raised during the delegated call is not caught.  It reaches the
    interpreter, no cancellation message is printed, and the process does not
    end through [sys.exit(1)]. *)
Theorem C8_interrupt_zero_arguments :
  exists s',
    process (failing_crew (mkExc KeyboardInterrupt "interrupted")) ["example_main.py"]
      (initial_state 2025)
      = Some (Uncaught (mkExc KeyboardInterrupt "interrupted"), s') /\
    ~ In (Text cancel_line) (stdout s') /\
    stderr s' = [Traceback (mkExc KeyboardInterrupt "interrupted")].
Proof.
  eexists. split; [vm_compute; reflexivity|]. split; [|reflexivity].
  vm_compute. intros H. repeat (destruct H as [H|H]; [discriminate H|]). exact H.
Qed.

(** * Further properties of the dispatcher *)

(** ** The parsed action *)

Lemma parse_loop_action (toks : list Tok) :
  forall ns seen extras ns',
    (seen = true -> is_choice (action ns) = true) ->
    parse_loop toks ns seen extras = Some (Parsed ns') ->
    is_choice (action ns') = true.
Proof.
  assert (forall n toks, (length toks < n)%nat ->
            forall ns seen extras ns',
              (seen = true -> is_choice (action ns) = true) ->
              parse_loop toks ns seen extras = Some (Parsed ns') ->
              is_choice (action ns') = true) as H;
    [|by apply (H (S (length toks)) toks); lia].
  clear toks. induction n as [|n IH]; [lia|].
  intros [|t rest] Hlen ns seen extras ns' Hseen Hrun.
  - destruct seen, extras; cbn in Hrun; simplify_eq. by apply Hseen.
  - cbn [length] in Hlen.
    destruct t as [v|o' os [v|]|v| |]; cbn [parse_loop] in Hrun.
    + destruct seen.
      * eapply (IH rest); [lia| |done]. done.
      * destruct (is_choice v) eqn:Hv; [|done].
        eapply (IH rest); [lia| |done]. done.
    + destruct o'; try (destruct (_ && _) in Hrun; done);
        (destruct (store _ v ns) as [[ns1|]|] eqn:Hst; [|done|done];
         eapply (IH rest); [lia| |done];
         destruct (store_inv _ _ _ _ Hst) as [-> _]; done).
    + destruct o'; [done|..];
        (destruct rest as [|[v| | | |] rest']; try done;
         destruct (store _ v ns) as [[ns1|]|] eqn:Hst; [|done|done];
         cbn [length] in Hlen;
         eapply (IH rest'); [lia| |done];
         destruct (store_inv _ _ _ _ Hst) as [-> _]; done).
    + eapply (IH rest); [lia|done|done].
    + done.
    + done.
Qed.

Lemma parsed_action (args : list string) (ns : Namespace) :
  parse_args args = Some (Parsed ns) -> is_choice (action ns) = true.
Proof.
  unfold parse_args.
  destruct (existsb (String.eqb "--") args); [done|].
  destruct (existsb is_ambiguous (map parse_optional args)); [done|].
  apply parse_loop_action. done.
Qed.

Lemma is_choice_cases (a : string) :
  is_choice a = true ->
  a = "run" \/ a = "train" \/ a = "replay" \/ a = "test".
Proof.
  unfold is_choice, action_choices. cbn [existsb]. intros H.
  repeat (apply orb_true_iff in H as [H|H]; [apply String.eqb_eq in H; auto|]).
  done.
Qed.

Ltac py_strings :=
  repeat match goal with
         | |- context [String.eqb ?a ?b] =>
             let v := eval vm_compute in (String.eqb a b) in
             change (String.eqb a b) with v
         end;
  cbv iota.

Lemma main_body_dispatch (crew : Crew) (args : Namespace) (s : State) :
  is_choice (action args) = true ->
  replay_without_task args = false ->
  let l := fresh (dom (heap s)) in
  let d := cli_inputs (year s) args in
  let r := cli_result crew args d in
  exists h' : gmap loc dict,
    main_body crew args s =
      (handled r,
       mkState h' (year s) (stdout s ++ cli_output crew args d ++ handler_lines r)
               (stderr s) (calls s ++ crew_calls crew (cli_call args l d))).
Proof.
  intros Hch Hrep l d r. subst r. unfold cli_result, cli_output, cli_call.
  unfold replay_without_task in Hrep.
  destruct (is_choice_cases _ Hch) as [Ha|[Ha|[Ha|Ha]]].
  - rewrite Ha. py_strings. by apply main_body_run.
  - rewrite Ha. py_strings. by apply main_body_train.
  - rewrite Ha in Hrep |- *. py_strings. apply main_body_replay; [done|].
    cbn in Hrep. by destruct (truthy _).
  - rewrite Ha. py_strings. by apply main_body_test.
Qed.

Lemma finish_Raise {A} (r : Res A) (e : Exc) : finish r = Raise e -> r = Raise e.
Proof. destruct r; cbn; congruence. Qed.

Lemma cli_output_raise (crew : Crew) (args : Namespace) (d : dict) (e : Exc) :
  is_choice (action args) = true ->
  cli_result crew args d = Raise e ->
  cli_output crew args d =
    cli_header args d ++
    (if is_Exception e then [Text (cli_prefix args +:+ exc_str e)] else []).
Proof.
  intros Hch. unfold cli_result, cli_output, cli_header, cli_prefix.
  destruct (is_choice_cases _ Hch) as [Ha|[Ha|[Ha|Ha]]]; rewrite Ha; py_strings;
    intros Hr; apply finish_Raise in Hr;
    unfold run_output, train_output, replay_output, test_output; rewrite Hr; done.
Qed.

Lemma interpreter_handled (script : M unit) (s s' : State) (r : Res unit) :
  script s = (handled r, s') ->
  interpreter script s =
    match r with
    | Ok _ => (Exited 0, s')
    | Raise e =>
        match exc_class e with
        | StdException | KeyboardInterrupt => (Exited 1, s')
        | _ => unhandled e s'
        end
    end.
Proof.
  intros H. rewrite (interpreter_run _ _ _ _ H).
  destruct r as [[]|[[| |[n| |text]|] txt]]; reflexivity.
Qed.

Lemma process_dispatch (crew : Crew) (argv : list string) (args : Namespace) (s : State) :
  parse_args (tail argv) = Some (Parsed args) ->
  replay_without_task args = false ->
  let l := fresh (dom (heap s)) in
  let d := cli_inputs (year s) args in
  let r := cli_result crew args d in
  exists h' : gmap loc dict,
    let s' := mkState h' (year s) (stdout s ++ cli_output crew args d ++ handler_lines r)
                      (stderr s) (calls s ++ crew_calls crew (cli_call args l d)) in
    process crew argv s =
      Some match r with
           | Ok _ => (Exited 0, s')
           | Raise e =>
               match exc_class e with
               | StdException | KeyboardInterrupt => (Exited 1, s')
               | _ => unhandled e s'
               end
           end.
Proof.
  intros Hp Hrep l d r.
  destruct (main_body_dispatch crew args s (parsed_action _ _ Hp) Hrep) as (h' & Hrun).
  exists h'. cbv zeta.
  by rewrite (process_parsed _ _ _ _ Hp), (interpreter_handled _ _ _ _ Hrun).
Qed.

Lemma replay_with_task (args : Namespace) (t : string) :
  task_id args = Some t -> t <> "" -> replay_without_task args = false.
Proof.
  intros Ht Hne. unfold replay_without_task. rewrite Ht. cbn [py_opt].
  rewrite (proj2 (truthy_PyStr t) Hne). apply andb_false_r.
Qed.

Lemma not_replay (args : Namespace) :
  action args <> "replay" -> replay_without_task args = false.
Proof.
  intros Hne. unfold replay_without_task.
  destruct (String.eqb_spec (action args) "replay"); [done|reflexivity].
Qed.

(** ** Replaying *)

(** X1: [replay] with a [--task-id] that is stored as a non-empty string
    (every non-empty value but the bare [--], for which the empty list is
    stored) calls the delegated replay operation once, with that
    identifier; when it returns, its result is printed verbatim and the
    process exits with status 0. *)
Theorem replay_with_task_id (crew : Crew) (argv : list string) (args : Namespace)
    (s : State) (t : string) :
  parse_args (tail argv) = Some (Parsed args) ->
  action args = "replay" ->
  task_id args = Some t ->
  t <> "" ->
  exists term s',
    process crew argv s = Some (term, s') /\
    calls s' = calls s ++ crew_calls crew (CallReplay (PyStr t)) /\
    (forall result,
        outcome crew (crew_replay crew (PyStr t)) = Ok result ->
        term = Exited 0 /\
        stdout s' = stdout s ++
                    [Text ("Replaying crew execution from task: " +:+ t);
                     Text (str_repeat "-" 50);
                     Text "✅ Replay completed successfully!";
                     Text ("Result: " +:+ result)] /\
        stderr s' = stderr s).
Proof.
  intros Hp Hact Ht Hne.
  destruct (process_dispatch crew argv args s Hp (replay_with_task _ _ Ht Hne))
    as (h' & Hrun).
  cbv zeta in Hrun. unfold cli_result, cli_output, cli_call in Hrun.
  rewrite Hact, Ht in Hrun. revert Hrun. py_strings. cbn [py_opt]. intros Hrun.
  unfold replay_output in Hrun.
  destruct (outcome crew (crew_replay crew (PyStr t))) as [res|[[| |[n| |text]|] txt]];
    cbn [finish exc_class report handler_lines] in Hrun;
    eexists _, _; (split; [exact Hrun|]); (split; [reflexivity|]);
    intros result Hres; simplify_eq.
  cbn [stdout stderr py_str]. by rewrite app_nil_r.
Qed.

Lemma replay_with_task_id_witness :
  exists s',
    process (quiet_crew "resumed")
      ["example_main.py"; "replay"; "--task-id"; "task-42"] (initial_state 2025)
      = Some (Exited 0, s') /\
    calls s' = [CallReplay (PyStr "task-42")] /\
    last (stdout s') = Some (Text "Result: resumed").
Proof.
  destruct (replay_with_task_id (quiet_crew "resumed")
              ["example_main.py"; "replay"; "--task-id"; "task-42"]
              (mkNamespace "replay" None 5 "training_results.json"
                           "openai/gpt-4o-mini" (Some "task-42"))
              (initial_state 2025) "task-42")
    as (term & s' & Hrun & Hcalls & Hok).
  - vm_compute. reflexivity.
  - reflexivity.
  - reflexivity.
  - discriminate.
  - destruct (Hok "resumed" eq_refl) as (-> & Hout & _).
    exists s'. split; [exact Hrun|]. split; [exact Hcalls|].
    rewrite Hout. reflexivity.
Defined.

(** X16: [replay] with the bare [--] attached as the task identifier
    ([--task-id=--]) is a [replay] without a task identifier: [argparse]
    stores the empty list, which [main] finds false; the error message is
    printed, the process exits with status 1 and no delegated call is
    made. *)
Theorem replay_bare_dashes_task_id (crew : Crew) (argv : list string)
    (args : Namespace) (s : State) :
  parse_args (tail argv) = Some (Parsed args) ->
  action args = "replay" ->
  task_id args = Some AEmptyList ->
  exists s',
    process crew argv s = Some (Exited 1, s') /\
    stdout s' = stdout s ++ [Text "❌ Error: task-id is required for replay action"] /\
    stderr s' = stderr s /\
    calls s' = calls s.
Proof.
  intros Hp Hact Htask.
  assert (truthy (py_opt (task_id args)) = false) as Hfalsy by by rewrite Htask.
  destruct (main_body_replay_missing crew args s Hact Hfalsy) as (h' & Hrun).
  rewrite (process_parsed _ _ _ _ Hp), (interpreter_run _ _ _ _ Hrun).
  eexists. split; [reflexivity|]. done.
Qed.

Lemma replay_bare_dashes_task_id_witness :
  exists s',
    process (quiet_crew "resumed") ["example_main.py"; "replay"; "--task-id=--"]
      (initial_state 2025) = Some (Exited 1, s') /\
    stdout s' = [Text "❌ Error: task-id is required for replay action"] /\
    calls s' = [].
Proof.
  destruct (replay_bare_dashes_task_id (quiet_crew "resumed")
              ["example_main.py"; "replay"; "--task-id=--"]
              (mkNamespace "replay" None 5 "training_results.json"
                           "openai/gpt-4o-mini" (Some AEmptyList))
              (initial_state 2025))
    as (s' & Hrun & Hout & _ & Hcalls).
  - vm_compute. reflexivity.
  - reflexivity.
  - reflexivity.
  - exists s'. split; [exact Hrun|]. split; [exact Hout|exact Hcalls].
Defined.

(** ** Successful runs *)

(** X2: when the delegated operation of [run], [train] or [test] returns, the
    process exits with status 0, nothing is written to standard error, and
    standard output holds the header of the operation followed by its
    completion lines, with the result printed verbatim ([train] names the
    results file instead). *)
Theorem success_exits_zero (crew : Crew) (argv : list string) (args : Namespace)
    (s : State) :
  parse_args (tail argv) = Some (Parsed args) ->
  let d := cli_inputs (year s) args in
  (action args = "run" ->
   forall result,
     outcome crew (crew_kickoff crew d).2 = Ok result ->
     exists s',
       process crew argv s = Some (Exited 0, s') /\
       stdout s' = stdout s ++ run_header d ++
                   [Text (nl +:+ str_repeat "=" 50); Text "DEBATE COMPLETED";
                    Text (str_repeat "=" 50); Text ("Result: " +:+ result)] /\
       stderr s' = stderr s) /\
  (action args = "train" ->
   outcome crew (crew_train crew (iterations args) (filename args) d).2 = Ok tt ->
   exists s',
     process crew argv s = Some (Exited 0, s') /\
     stdout s' = stdout s ++ train_header (iterations args) (filename args) d ++
                 [Text ("✅ Training completed successfully! Results saved to "
                        +:+ filename args)] /\
     stderr s' = stderr s) /\
  (action args = "test" ->
   forall result,
     outcome crew (crew_test crew (iterations args) (eval_llm args) d).2 = Ok result ->
     exists s',
       process crew argv s = Some (Exited 0, s') /\
       stdout s' = stdout s ++ test_header (iterations args) (eval_llm args) d ++
                   [Text "✅ Testing completed successfully!";
                    Text ("Test results: " +:+ result)] /\
       stderr s' = stderr s).
Proof.
  intros Hp d. split; [|split].
  - intros Hact result Hres.
    destruct (process_dispatch crew argv args s Hp) as (h' & Hrun).
    { apply not_replay. by rewrite Hact. }
    cbv zeta in Hrun. fold d in Hrun. unfold cli_result, cli_output in Hrun.
    rewrite Hact in Hrun. revert Hrun. py_strings. unfold run_output.
    rewrite Hres. cbn [finish report handler_lines]. intros Hrun.
    eexists. split; [exact Hrun|]. cbn [stdout stderr]. by rewrite app_nil_r.
  - intros Hact Hres.
    destruct (process_dispatch crew argv args s Hp) as (h' & Hrun).
    { apply not_replay. by rewrite Hact. }
    cbv zeta in Hrun. fold d in Hrun. unfold cli_result, cli_output in Hrun.
    rewrite Hact in Hrun. revert Hrun. py_strings. unfold train_output.
    rewrite Hres. cbn [finish report handler_lines]. intros Hrun.
    eexists. split; [exact Hrun|]. cbn [stdout stderr]. by rewrite app_nil_r.
  - intros Hact result Hres.
    destruct (process_dispatch crew argv args s Hp) as (h' & Hrun).
    { apply not_replay. by rewrite Hact. }
    cbv zeta in Hrun. fold d in Hrun. unfold cli_result, cli_output in Hrun.
    rewrite Hact in Hrun. revert Hrun. py_strings. unfold test_output.
    rewrite Hres. cbn [finish report handler_lines]. intros Hrun.
    eexists. split; [exact Hrun|]. cbn [stdout stderr]. by rewrite app_nil_r.
Qed.

Lemma success_exits_zero_witness :
  exists s',
    process (quiet_crew "The motion carries")
      ["example_main.py"; "test"; "--eval-llm"; "judge"] (initial_state 2025)
      = Some (Exited 0, s') /\
    last (stdout s') = Some (Text "Test results: The motion carries") /\
    stderr s' = [].
Proof.
  destruct (success_exits_zero (quiet_crew "The motion carries")
              ["example_main.py"; "test"; "--eval-llm"; "judge"]
              (mkNamespace "test" None 5 "training_results.json" "judge" None)
              (initial_state 2025)) as (_ & _ & Htest).
  - vm_compute. reflexivity.
  - destruct (Htest eq_refl "The motion carries" eq_refl) as (s' & Hrun & Hout & Herr).
    exists s'. split; [exact Hrun|]. split; [|exact Herr].
    rewrite Hout. reflexivity.
Defined.

(** ** Interrupts and exits raised by the framework *)

(** X4: with an action on the command line, a [KeyboardInterrupt] raised by
    the delegated expression of any of the four operations passes the
    operation's own [except Exception] untouched, is caught by [main], which
    prints the cancellation line, and the process exits with status 1;
    nothing is written to standard error. *)
Theorem interrupt_with_action (crew : Crew) (argv : list string) (args : Namespace)
    (s : State) (e : Exc) :
  parse_args (tail argv) = Some (Parsed args) ->
  replay_without_task args = false ->
  cli_result crew args (cli_inputs (year s) args) = Raise e ->
  is_KeyboardInterrupt e = true ->
  exists s',
    process crew argv s = Some (Exited 1, s') /\
    stdout s' = stdout s ++ cli_header args (cli_inputs (year s) args) ++
                [Text (nl +:+ "⚠️  Operation cancelled by user")] /\
    stderr s' = stderr s.
Proof.
  intros Hp Hrep Hres He.
  destruct (process_dispatch crew argv args s Hp Hrep) as (h' & Hrun).
  cbv zeta in Hrun. rewrite Hres in Hrun.
  rewrite (cli_output_raise _ _ _ _ (parsed_action _ _ Hp) Hres) in Hrun.
  cbn [handler_lines] in Hrun. rewrite He in Hrun.
  unfold is_KeyboardInterrupt in He. unfold is_Exception in Hrun.
  destruct (exc_class e); try done.
  eexists. split; [exact Hrun|]. cbn [stdout stderr].
  by rewrite app_nil_r.
Qed.

Lemma interrupt_with_action_witness :
  exists s',
    process (failing_crew (mkExc KeyboardInterrupt "interrupted"))
      ["example_main.py"; "train"] (initial_state 2025) = Some (Exited 1, s') /\
    last (stdout s') = Some (Text cancel_line) /\
    stderr s' = [].
Proof.
  destruct (interrupt_with_action (failing_crew (mkExc KeyboardInterrupt "interrupted"))
              ["example_main.py"; "train"]
              (mkNamespace "train" None 5 "training_results.json"
                           "openai/gpt-4o-mini" None)
              (initial_state 2025) (mkExc KeyboardInterrupt "interrupted"))
    as (s' & Hrun & Hout & Herr).
  - vm_compute. reflexivity.
  - reflexivity.
  - reflexivity.
  - reflexivity.
  - exists s'. split; [exact Hrun|]. split; [|exact Herr].
    rewrite Hout. reflexivity.
Defined.

(** X5: an exception of the delegated expression that is neither an
    [Exception] nor a [KeyboardInterrupt] passes every handler of the
    dispatcher, which prints no error line.  A [SystemExit] ends the process
    the way the interpreter ends it: for an integer code [n] the status is
    [exit_status n] ([n] itself from 0 to 255) and nothing is written to
    standard error; for [None] the status is 0; for any other code, [str] of
    the code is written to standard error and the status is 1.  Any other
    exception reaches the interpreter uncaught. *)
Theorem base_exception_passes_through (crew : Crew) (argv : list string)
    (args : Namespace) (s : State) (e : Exc) :
  parse_args (tail argv) = Some (Parsed args) ->
  replay_without_task args = false ->
  cli_result crew args (cli_inputs (year s) args) = Raise e ->
  (forall n : Z, exc_class e = SystemExit (CodeInt n) ->
     (0 <= n < 256 -> exit_status n = n) /\
     exists s',
       process crew argv s = Some (Exited (exit_status n), s') /\
       stdout s' = stdout s ++ cli_header args (cli_inputs (year s) args) /\
       stderr s' = stderr s) /\
  (exc_class e = SystemExit CodeNone ->
     exists s',
       process crew argv s = Some (Exited 0, s') /\
       stdout s' = stdout s ++ cli_header args (cli_inputs (year s) args) /\
       stderr s' = stderr s) /\
  (forall text, exc_class e = SystemExit (CodeObject text) ->
     exists s',
       process crew argv s = Some (Exited 1, s') /\
       stdout s' = stdout s ++ cli_header args (cli_inputs (year s) args) /\
       stderr s' = stderr s ++ [Text text]) /\
  (exc_class e = OtherBaseException ->
     exists s',
       process crew argv s = Some (Uncaught e, s') /\
       stdout s' = stdout s ++ cli_header args (cli_inputs (year s) args) /\
       stderr s' = stderr s ++ [Traceback e]).
Proof.
  intros Hp Hrep Hres.
  destruct (process_dispatch crew argv args s Hp Hrep) as (h' & Hrun).
  cbv zeta in Hrun. rewrite Hres in Hrun.
  rewrite (cli_output_raise _ _ _ _ (parsed_action _ _ Hp) Hres) in Hrun.
  cbn [handler_lines] in Hrun.
  unfold is_KeyboardInterrupt, is_Exception, unhandled in Hrun.
  split; [|split; [|split]].
  - intros n Hc. rewrite Hc in Hrun. split.
    + intros Hn. unfold exit_status.
      replace ((- 2 ^ 63 <=? n) && (n <? 2 ^ 63)) with true by lia.
      by apply Z.mod_small.
    + eexists. split; [exact Hrun|]. cbn [stdout stderr]. by rewrite !app_nil_r.
  - intros Hc. rewrite Hc in Hrun.
    eexists. split; [exact Hrun|]. cbn [stdout stderr]. by rewrite !app_nil_r.
  - intros text Hc. rewrite Hc in Hrun.
    eexists. split; [exact Hrun|]. cbn [stdout stderr add_stderr]. by rewrite !app_nil_r.
  - intros Hc. rewrite Hc in Hrun.
    eexists. split; [exact Hrun|]. cbn [stdout stderr add_stderr]. by rewrite !app_nil_r.
Qed.

Lemma base_exception_passes_through_witness :
  exists s',
    process (failing_crew (mkExc (SystemExit 256) "256"))
      ["example_main.py"; "run"] (initial_state 2025) = Some (Exited 0, s') /\
    stdout s' = run_header (default_inputs 2025) /\
    stderr s' = [].
Proof.
  destruct (base_exception_passes_through (failing_crew (mkExc (SystemExit 256) "256"))
              ["example_main.py"; "run"]
              (mkNamespace "run" None 5 "training_results.json"
                           "openai/gpt-4o-mini" None)
              (initial_state 2025) (mkExc (SystemExit 256) "256")) as [Hexit _].
  - vm_compute. reflexivity.
  - reflexivity.
  - reflexivity.
  - destruct (Hexit 256 eq_refl) as (_ & s' & Hrun & Hout & Herr).
    exists s'. split; [exact Hrun|]. split; [exact Hout|exact Herr].
Defined.

(** ** Defaults of the other options *)

Lemma store_keeps_names (o : Opt) (v : string) (ns ns' : Namespace) :
  store o v ns = Some (Some ns') ->
  (Opt_eqb OFilename o = false -> filename ns' = filename ns) /\
  (Opt_eqb OEvalLlm o = false -> eval_llm ns' = eval_llm ns) /\
  (Opt_eqb OMotion o = false -> motion ns' = motion ns).
Proof.
  destruct o; cbn; intros H; simplify_eq; try done.
  all: unfold get_values in H; destruct (String.eqb v "--"); try done;
    try (destruct (py_int v)); by simplify_eq.
Qed.

Lemma filename_default (args : list string) (ns : Namespace) :
  flag_given OFilename args = false ->
  parse_args args = Some (Parsed ns) ->
  filename ns = "training_results.json".
Proof.
  intros Hno.
  apply (parse_args_keeps OFilename (fun ns => filename ns = "training_results.json"));
    try done.
  intros o' v ns1 ns2 Ho Hst <-. by apply (store_keeps_names _ _ _ _ Hst).
Qed.

Lemma eval_llm_default (args : list string) (ns : Namespace) :
  flag_given OEvalLlm args = false ->
  parse_args args = Some (Parsed ns) ->
  eval_llm ns = "openai/gpt-4o-mini".
Proof.
  intros Hno.
  apply (parse_args_keeps OEvalLlm (fun ns => eval_llm ns = "openai/gpt-4o-mini"));
    try done.
  intros o' v ns1 ns2 Ho Hst <-. by apply (store_keeps_names _ _ _ _ Hst).
Qed.

Lemma motion_default (args : list string) (ns : Namespace) :
  flag_given OMotion args = false ->
  parse_args args = Some (Parsed ns) ->
  motion ns = None.
Proof.
  intros Hno.
  apply (parse_args_keeps OMotion (fun ns => motion ns = None)); try done.
  intros o' v ns1 ns2 Ho Hst <-. by apply (store_keeps_names _ _ _ _ Hst).
Qed.

(** The calls of a process that dispatched: none or the one of the action. *)
Lemma process_calls (crew : Crew) (argv : list string) (args : Namespace) (s : State) :
  parse_args (tail argv) = Some (Parsed args) ->
  replay_without_task args = false ->
  exists t s',
    process crew argv s = Some (t, s') /\
    calls s' = calls s ++
      crew_calls crew (cli_call args (fresh (dom (heap s))) (cli_inputs (year s) args)).
Proof.
  intros Hp Hrep.
  destruct (process_dispatch crew argv args s Hp Hrep) as (h' & Hrun).
  cbv zeta in Hrun. rewrite Hrun.
  destruct (cli_result _ _ _) as [[]|[[| |[n| |text]|] txt]]; cbn [exc_class];
    eexists _, _; (split; [reflexivity|done]).
Qed.

(** X3: without [--filename], [train] hands the path
    ["training_results.json"] to the delegated training operation; without
    [--eval-llm], [test] hands it the evaluator ["openai/gpt-4o-mini"]. *)
Theorem filename_and_eval_llm_defaults (crew : Crew) (argv : list string)
    (args : Namespace) (s : State) :
  parse_args (tail argv) = Some (Parsed args) ->
  (flag_given OFilename (tail argv) = false ->
   action args = "train" ->
   exists t s' l d,
     process crew argv s = Some (t, s') /\
     calls s' = calls s ++
       crew_calls crew (CallTrain (iterations args) "training_results.json" l d)) /\
  (flag_given OEvalLlm (tail argv) = false ->
   action args = "test" ->
   exists t s' l d,
     process crew argv s = Some (t, s') /\
     calls s' = calls s ++
       crew_calls crew (CallTest (iterations args) "openai/gpt-4o-mini" l d)).
Proof.
  intros Hp. split; intros Hno Hact.
  - destruct (process_calls crew argv args s Hp) as (t & s' & Hrun & Hcalls).
    { apply not_replay. by rewrite Hact. }
    unfold cli_call in Hcalls. rewrite Hact, (filename_default _ _ Hno Hp) in Hcalls.
    revert Hcalls. py_strings. intros Hcalls. by eexists _, _, _, _.
  - destruct (process_calls crew argv args s Hp) as (t & s' & Hrun & Hcalls).
    { apply not_replay. by rewrite Hact. }
    unfold cli_call in Hcalls. rewrite Hact, (eval_llm_default _ _ Hno Hp) in Hcalls.
    revert Hcalls. py_strings. intros Hcalls. by eexists _, _, _, _.
Qed.

Lemma filename_and_eval_llm_defaults_witness :
  exists t s' l d,
    process (quiet_crew "done") ["example_main.py"; "--iterations"; "2"; "train"]
      (initial_state 2025) = Some (t, s') /\
    calls s' = [CallTrain 2 "training_results.json" l d].
Proof.
  destruct (filename_and_eval_llm_defaults (quiet_crew "done")
              ["example_main.py"; "--iterations"; "2"; "train"]
              (mkNamespace "train" None 2 "training_results.json"
                           "openai/gpt-4o-mini" None)
              (initial_state 2025)) as [Htrain _].
  - vm_compute. reflexivity.
  - apply Htrain; vm_compute; reflexivity.
Defined.

(** ** The mapping built from the command line *)

(** X11: from the command line, [run], [train] and [test] hand the delegated
    operation exactly the default mapping when [--motion] is absent or given
    with the empty string. *)
Theorem cli_missing_motion_default (crew : Crew) (argv : list string)
    (args : Namespace) (s : State) :
  parse_args (tail argv) = Some (Parsed args) ->
  action args <> "replay" ->
  flag_given OMotion (tail argv) = false \/ motion args = Some "" ->
  exists t s' l,
    process crew argv s = Some (t, s') /\
    calls s' = calls s ++
      crew_calls crew
        (cli_call args l
           (<["motion" := PyStr "AI LLMs will significantly improve human productivity"]>
              (<["current_year" := PyStr (pretty (year s))]> ∅))).
Proof.
  intros Hp Hact Hm.
  destruct (process_calls crew argv args s Hp (not_replay _ Hact))
    as (t & s' & Hrun & Hcalls).
  assert (cli_inputs (year s) args = default_inputs (year s)) as Hd.
  { unfold cli_inputs. destruct Hm as [Hno| ->]; [|done].
    by rewrite (motion_default _ _ Hno Hp). }
  rewrite Hd in Hcalls. by eexists _, _, _.
Qed.

Lemma cli_missing_motion_default_witness :
  exists t s' l,
    process (quiet_crew "done") ["example_main.py"; "run"; "--motion"; ""]
      (initial_state 2025) = Some (t, s') /\
    calls s' = [CallKickoff l (default_inputs 2025)].
Proof.
  destruct (cli_missing_motion_default (quiet_crew "done")
              ["example_main.py"; "run"; "--motion"; ""]
              (mkNamespace "run" (Some "") 5 "training_results.json"
                           "openai/gpt-4o-mini" None)
              (initial_state 2025)) as (t & s' & l & Hrun & Hcalls).
  - vm_compute. reflexivity.
  - discriminate.
  - right. reflexivity.
  - exists t, s', l. split; [exact Hrun|exact Hcalls].
Defined.

(** X12: no option of the command line reaches ['current_year']: whatever
    is given, the mapping that [run], [train] or [test] hands to the
    delegated operation has the clock's year under ['current_year'], a
    non-empty string under ['motion'], and no other key. *)
Theorem cli_mapping_shape (crew : Crew) (argv : list string) (args : Namespace)
    (s : State) :
  parse_args (tail argv) = Some (Parsed args) ->
  action args <> "replay" ->
  exists t s' l d v,
    process crew argv s = Some (t, s') /\
    calls s' = calls s ++ crew_calls crew (cli_call args l d) /\
    d = <["motion" := PyStr v]> (<["current_year" := PyStr (pretty (year s))]> ∅) /\
    v <> "".
Proof.
  intros Hp Hact.
  destruct (process_calls crew argv args s Hp (not_replay _ Hact))
    as (t & s' & Hrun & Hcalls).
  destruct (motion args) as [[v|]|] eqn:Hm.
  - destruct (decide (v = "")) as [->|Hv].
    + exists t, s', (fresh (dom (heap s))), (default_inputs (year s)), default_motion.
      split; [done|]. split; [|done].
      revert Hcalls. unfold cli_inputs. by rewrite Hm.
    + exists t, s', (fresh (dom (heap s))), (cli_inputs (year s) args), v.
      split; [done|]. split; [done|]. split; [|done].
      by apply cli_inputs_motion.
  - exists t, s', (fresh (dom (heap s))), (default_inputs (year s)), default_motion.
    split; [done|]. split; [|done].
    revert Hcalls. unfold cli_inputs. by rewrite Hm.
  - exists t, s', (fresh (dom (heap s))), (default_inputs (year s)), default_motion.
    split; [done|]. split; [|done].
    revert Hcalls. unfold cli_inputs. by rewrite Hm.
Qed.

Lemma cli_mapping_shape_witness :
  exists t s' l d v,
    process (quiet_crew "done")
      ["example_main.py"; "test"; "--motion"; "Cats"; "--filename"; "current_year=1999"]
      (initial_state 2025) = Some (t, s') /\
    calls s' = [CallTest 5 "openai/gpt-4o-mini" l d] /\
    d = <["motion" := PyStr v]> (<["current_year" := PyStr "2025"]> ∅) /\
    v <> "".
Proof.
  destruct (cli_mapping_shape (quiet_crew "done")
              ["example_main.py"; "test"; "--motion"; "Cats"; "--filename";
               "current_year=1999"]
              (mkNamespace "test" (Some "Cats") 5 "current_year=1999"
                           "openai/gpt-4o-mini" None)
              (initial_state 2025)) as (t & s' & l & d & v & Hrun & Hcalls & Hd & Hv).
  - vm_compute. reflexivity.
  - discriminate.
  - exists t, s', l, d, v. split; [exact Hrun|]. split; [exact Hcalls|].
    split; [exact Hd|exact Hv].
Defined.

(** ** The input helpers *)

(** X8: [get_default_inputs] always returns a new mapping object: one that
    did not exist before, holding the default motion and the clock's year;
    no existing object changes, nothing is printed or called, and a later
    call returns yet another object. *)
Theorem get_default_inputs_fresh (s : State) :
  exists l s',
    get_default_inputs s = (Ok l, s') /\
    heap s !! l = None /\
    heap s' !! l =
      Some (<["motion" := PyStr "AI LLMs will significantly improve human productivity"]>
              (<["current_year" := PyStr (pretty (year s))]> ∅)) /\
    (forall l', l' <> l -> heap s' !! l' = heap s !! l') /\
    stdout s' = stdout s /\ stderr s' = stderr s /\ calls s' = calls s /\
    (exists l2 s2, get_default_inputs s' = (Ok l2, s2) /\ l2 <> l).
Proof.
  rewrite get_default_inputs_run. eexists _, _. split; [reflexivity|].
  cbn [heap set_heap stdout stderr calls].
  split; [apply fresh_loc_None|]. split; [apply lookup_insert_eq|].
  split; [by intros l' Hne; rewrite lookup_insert_ne|].
  do 3 (split; [done|]).
  rewrite get_default_inputs_run. eexists _, _. split; [reflexivity|].
  cbn [heap set_heap]. intros Heq.
  pose proof (fresh_loc_None (<[fresh (dom (heap s)):=default_inputs (year s)]> (heap s)))
    as Hnone.
  rewrite Heq, lookup_insert_eq in Hnone. done.
Qed.

(** X9: [validate_inputs] never raises and touches nothing but the heap: it
    prints nothing, makes no delegated call, leaves the clock alone and
    leaves every other mapping object of the caller as it was. *)
Theorem validate_inputs_silent (l : loc) (s : State) (m : dict) :
  heap s !! l = Some m ->
  exists s1,
    validate_inputs l s = (Ok l, s1) /\
    stdout s1 = stdout s /\ stderr s1 = stderr s /\
    calls s1 = calls s /\ year s1 = year s /\
    (forall l' x, l' <> l -> heap s !! l' = Some x -> heap s1 !! l' = Some x).
Proof.
  intros Hl. destruct (validate_inputs_run l s m Hl) as (h' & Hrun & _ & Hfr).
  exists (set_heap h' s). split; [done|]. by cbn [set_heap stdout stderr calls year heap].
Qed.

Lemma validate_inputs_silent_witness :
  exists s1,
    validate_inputs 1%positive two_objects_state = (Ok 1%positive, s1) /\
    heap s1 !! 2%positive = Some (default_inputs 1999) /\
    stdout s1 = [].
Proof.
  destruct (validate_inputs_silent 1%positive two_objects_state ∅)
    as (s1 & Hrun & Hout & _ & _ & _ & Hfr).
  - vm_compute. reflexivity.
  - exists s1. split; [exact Hrun|]. split; [|exact Hout].
    apply Hfr; [discriminate|vm_compute; reflexivity].
Defined.

(** X10: a caller's mapping whose ['motion'] and ['current_year'] are both
    non-empty reaches the delegated operation of [run], [train] and [test]
    exactly as the caller built it, extra keys included. *)
Theorem complete_mapping_unchanged (crew : Crew) (l : loc) (s : State) (m : dict) :
  heap s !! l = Some m ->
  truthy (default PyNone (m !! "motion")) = true ->
  truthy (default PyNone (m !! "current_year")) = true ->
  (exists r s',
      run crew (Some l) s = (r, s') /\
      calls s' = calls s ++ crew_calls crew (CallKickoff l m)) /\
  (forall n file, exists r s',
      train crew n file (Some l) s = (r, s') /\
      calls s' = calls s ++ crew_calls crew (CallTrain n file l m)) /\
  (forall n llm, exists r s',
      test crew n llm (Some l) s = (r, s') /\
      calls s' = calls s ++ crew_calls crew (CallTest n llm l m)).
Proof.
  intros Hl Hm Hy. pose proof (validated_id (year s) m Hm Hy) as Hv.
  split; [|split].
  - destruct (run_spec crew (Some l) s m Hl) as (l' & h' & Hrun & _ & -> & _).
    cbv zeta in Hrun. rewrite Hv in Hrun. by eexists _, _.
  - intros n file.
    destruct (train_spec crew n file (Some l) s m Hl) as (l' & h' & Hrun & _ & -> & _).
    cbv zeta in Hrun. rewrite Hv in Hrun. by eexists _, _.
  - intros n llm.
    destruct (test_spec crew n llm (Some l) s m Hl) as (l' & h' & Hrun & _ & -> & _).
    cbv zeta in Hrun. rewrite Hv in Hrun. by eexists _, _.
Qed.

Lemma complete_mapping_unchanged_witness :
  exists r s',
    run (quiet_crew "done") (Some 1%positive) complete_state = (r, s') /\
    calls s' = [CallKickoff 1%positive complete_mapping].
Proof.
  destruct (complete_mapping_unchanged (quiet_crew "done") 1%positive
              complete_state complete_mapping)
    as [(r & s' & Hrun & Hcalls) _].
  - reflexivity.
  - reflexivity.
  - reflexivity.
  - exists r, s'. split; [exact Hrun|exact Hcalls].
Defined.

(** ** No arguments: exceptions *)

(** X6: with no command-line arguments, an exception of the delegated
    expression other than [SystemExit] reaches the interpreter uncaught,
    which writes its traceback to standard error.  [run] has printed its
    own error line before when the exception is an [Exception]; the
    fatal-error line and the cancellation line of [main] are never printed
    on this path. *)
Theorem zero_arguments_exception (crew : Crew) (prog : string) (s : State) (e : Exc) :
  outcome crew (crew_kickoff crew (default_inputs (year s))).2 = Raise e ->
  (forall code, exc_class e <> SystemExit code) ->
  exists s',
    process crew [prog] s = Some (Uncaught e, s') /\
    stdout s' = stdout s ++
                [Text "Running debate crew with default settings..."] ++
                run_header (default_inputs (year s)) ++
                (if is_Exception e
                 then [Text ("❌ Error occurred while running the crew: " +:+ exc_str e)]
                 else []) /\
    stderr s' = stderr s ++ [Traceback e].
Proof.
  intros Hout Hclass. rewrite process_alone.
  destruct (run_spec crew None
              (add_stdout (Text "Running debate crew with default settings...") s)
              (default_inputs (year s)) eq_refl) as (l0 & h0 & Hrun0 & _).
  cbn [year add_stdout stdout stderr calls heap] in Hrun0.
  rewrite validated_default_inputs in Hrun0.
  unfold run_output in Hrun0. rewrite Hout in Hrun0. cbn [finish report] in Hrun0.
  erewrite interpreter_run; [|rewrite bind_run, print_run; exact Hrun0].
  unfold unhandled.
  destruct (exc_class e) as [| |code|] eqn:Hc; [| |by destruct (Hclass code)|];
    rewrite ?Hc;
    (eexists; split; [reflexivity|]; cbn [stdout stderr add_stderr];
     split; [by rewrite <- !app_assoc|done]).
Qed.

Lemma zero_arguments_exception_witness :
  exists s',
    process (failing_crew (mkExc StdException "no API key")) ["example_main.py"]
      (initial_state 2025) = Some (Uncaught (mkExc StdException "no API key"), s') /\
    last (stdout s') = Some (Text "❌ Error occurred while running the crew: no API key") /\
    stderr s' = [Traceback (mkExc StdException "no API key")].
Proof.
  destruct (zero_arguments_exception (failing_crew (mkExc StdException "no API key"))
              "example_main.py" (initial_state 2025) (mkExc StdException "no API key"))
    as (s' & Hrun & Hout & Herr).
  - reflexivity.
  - discriminate.
  - exists s'. split; [exact Hrun|]. split; [|exact Herr].
    rewrite Hout. reflexivity.
Defined.

(** ** One process, at most one delegated call *)

Lemma interpreter_calls (script : M unit) (s : State) :
  calls (interpreter script s).2 = calls (script s).2.
Proof.
  unfold interpreter. destruct (script s) as [[[]|e] s1]; [done|].
  unfold unhandled. by destruct (exc_class e) as [| |[n| |text]|].
Qed.

Lemma crew_calls_length (crew : Crew) (c : Call) :
  (length (crew_calls crew c) <= 1)%nat /\
  (is_Some (debate_crew crew) -> crew_calls crew c = []).
Proof.
  unfold crew_calls. destruct (debate_crew crew); cbn; split; try lia; try done.
Qed.

(** X7: however the program is invoked, it makes at most one delegated call,
    and none at all when the crew object could not be built. *)
Theorem at_most_one_call (crew : Crew) (argv : list string) (s : State)
    (t : Termination) (s' : State) :
  process crew argv s = Some (t, s') ->
  exists cs,
    calls s' = calls s ++ cs /\
    (length cs <= 1)%nat /\
    (is_Some (debate_crew crew) -> cs = []).
Proof.
  intros Hproc.
  assert (forall script, Some (interpreter script s) = Some (t, s') ->
            calls s' = calls (script s).2) as Hint.
  { intros script [= H]. rewrite <- interpreter_calls, H. done. }
  destruct (length argv =? 1)%nat eqn:Hlen.
  - destruct argv as [|prog [|a rest]]; try discriminate Hlen.
    rewrite process_alone in Hproc. apply Hint in Hproc.
    destruct (run_spec crew None
                (add_stdout (Text "Running debate crew with default settings...") s)
                (default_inputs (year s)) eq_refl) as (l0 & h0 & Hrun0 & _).
    rewrite bind_run, print_run, Hrun0 in Hproc. cbn [snd calls add_stdout] in Hproc.
    eexists. split; [exact Hproc|]. apply crew_calls_length.
  - destruct (parse_args (tail argv)) as [[args| |]|] eqn:Hp.
    + destruct (replay_without_task args) eqn:Hrep.
      * unfold replay_without_task in Hrep. apply andb_true_iff in Hrep as [Ha Ht].
        apply String.eqb_eq in Ha. apply negb_true_iff in Ht.
        destruct (main_body_replay_missing crew args s Ha Ht) as (h' & Hrun).
        rewrite (process_parsed _ _ _ _ Hp) in Hproc. apply Hint in Hproc.
        rewrite Hrun in Hproc. cbn [snd calls] in Hproc.
        exists []. rewrite app_nil_r. split; [done|]. split; [cbn; lia|done].
      * destruct (process_calls crew argv args s Hp Hrep) as (t1 & s1 & Hrun & Hcalls).
        rewrite Hrun in Hproc. simplify_eq.
        eexists. split; [exact Hcalls|]. apply crew_calls_length.
    + unfold process, dunder_main, main in Hproc. rewrite Hlen, Hp in Hproc.
      cbn in Hproc. simplify_eq. exists []. rewrite app_nil_r. cbn. split; [done|].
      split; [lia|done].
    + unfold process, dunder_main, main in Hproc. rewrite Hlen, Hp in Hproc.
      cbn in Hproc. simplify_eq. exists []. rewrite app_nil_r. cbn. split; [done|].
      split; [lia|done].
    + unfold process, dunder_main, main in Hproc. rewrite Hlen, Hp in Hproc. done.
Qed.

Lemma at_most_one_call_witness :
  exists t s' cs,
    process (quiet_crew "done") ["example_main.py"; "train"; "--iterations"; "7"]
      (initial_state 2025) = Some (t, s') /\
    calls s' = cs /\ (length cs <= 1)%nat.
Proof.
  destruct (process (quiet_crew "done")
              ["example_main.py"; "train"; "--iterations"; "7"] (initial_state 2025))
    as [[t s']|] eqn:Hproc.
  - destruct (at_most_one_call _ _ _ _ _ Hproc) as (cs & Hcalls & Hlen & _).
    exists t, s', cs. split; [reflexivity|]. split; [exact Hcalls|exact Hlen].
  - vm_compute in Hproc. discriminate Hproc.
Defined.

(** ** Command lines without an action word *)

Lemma get_option_tuples_opt (s : string) (t : Tok) :
  t ∈ get_option_tuples s -> exists o os e, t = TOpt o os e.
Proof.
  unfold get_option_tuples.
  destruct (String.prefix "--" s).
  - destruct (match split_eq s with Some (a, b) => (a, Some b) | None => (s, None) end)
      as [option_prefix explicit_arg].
    intros Hin. apply list_elem_of_omap in Hin as ([os o] & _ & Hf).
    destruct (String.prefix option_prefix os); simplify_eq. eauto.
  - intros Hin. apply list_elem_of_omap in Hin as ([os o] & _ & Hf).
    destruct (String.eqb os _); [simplify_eq; eauto|].
    destruct (String.prefix s os); simplify_eq. eauto.
Qed.

Lemma parse_optional_arg (a v : string) : parse_optional a = TArg v -> v = a.
Proof.
  unfold parse_optional.
  destruct (String.eqb a ""); [congruence|].
  destruct (negb (String.prefix "-" a)); [congruence|].
  destruct (lookup_option a); [done|].
  destruct (_ =? 1)%nat; [congruence|].
  destruct (match split_eq a with
            | Some (os, explicit_arg) =>
                match lookup_option os with
                | Some o => Some (TOpt o os (Some explicit_arg))
                | None => None
                end
            | None => None
            end) as [t|] eqn:Hexact.
  - destruct (split_eq a) as [[os ex]|]; [|done].
    destruct (lookup_option os); simplify_eq. done.
  - destruct (get_option_tuples a) as [|t [|t' l]] eqn:Htup.
    + destruct (negative_number a); [congruence|].
      destruct (any_char _ a); [congruence|].
      by destruct (negb (all_chars is_ascii a)).
    + intros ->. destruct (get_option_tuples_opt a (TArg v)) as (o & os & e & H).
      * rewrite Htup. apply list_elem_of_here.
      * done.
    + done.
Qed.

Lemma parse_loop_action_from (Q : string -> Prop) (toks : list Tok) :
  forall ns seen extras ns',
    (seen = true -> Q (action ns)) ->
    (forall v, In (TArg v) toks -> is_choice v = true -> Q v) ->
    parse_loop toks ns seen extras = Some (Parsed ns') ->
    Q (action ns').
Proof.
  assert (forall n toks, (length toks < n)%nat ->
            forall ns seen extras ns',
              (seen = true -> Q (action ns)) ->
              (forall v, In (TArg v) toks -> is_choice v = true -> Q v) ->
              parse_loop toks ns seen extras = Some (Parsed ns') ->
              Q (action ns')) as H;
    [|by apply (H (S (length toks)) toks); lia].
  clear toks. induction n as [|n IH]; [lia|].
  intros [|t rest] Hlen ns seen extras ns' Hseen Htoks Hrun.
  - destruct seen, extras; cbn in Hrun; simplify_eq. by apply Hseen.
  - cbn [length] in Hlen.
    assert (forall v, In (TArg v) rest -> is_choice v = true -> Q v) as Hrest.
    { intros v Hin. apply Htoks. by right. }
    destruct t as [v|o' os [v|]|v| |]; cbn [parse_loop] in Hrun.
    + destruct seen.
      * eapply (IH rest); [lia| |done|done]. done.
      * destruct (is_choice v) eqn:Hv; [|done].
        eapply (IH rest); [lia| |done|done].
        intros _. cbn [action set_action]. apply Htoks; [by left|done].
    + destruct o'; try (destruct (_ && _) in Hrun; done);
        (destruct (store _ v ns) as [[ns1|]|] eqn:Hst; [|done|done];
         eapply (IH rest); [lia| |done|done];
         destruct (store_inv _ _ _ _ Hst) as [-> _]; done).
    + destruct o'; [done|..];
        (destruct rest as [|[v| | | |] rest']; try done;
         destruct (store _ v ns) as [[ns1|]|] eqn:Hst; [|done|done];
         cbn [length] in Hlen;
         eapply (IH rest'); [lia| | |done];
         [destruct (store_inv _ _ _ _ Hst) as [-> _]; done
         |intros v' Hin; apply Hrest; by right]).
    + eapply (IH rest); [lia|done|done|done].
    + done.
    + done.
Qed.

(** The parsed action is one of the four choices and is an argument of the
    command line. *)
Lemma parsed_action_given (args : list string) (ns : Namespace) :
  parse_args args = Some (Parsed ns) ->
  is_choice (action ns) = true /\ In (action ns) args.
Proof.
  unfold parse_args.
  destruct (existsb (String.eqb "--") args); [done|].
  destruct (existsb is_ambiguous (map parse_optional args)); [done|].
  apply (parse_loop_action_from (fun a => is_choice a = true /\ In a args)); [done|].
  intros v Hin Hv. split; [done|].
  apply in_map_iff in Hin as (a & Ha & Hin).
  by rewrite (parse_optional_arg _ _ Ha).
Qed.

(** X13: a command line with at least one argument, none of which is one of
    the words [run], [train], [replay], [test], never reaches the
    dispatcher: no mapping object is built, no delegated call is made, the
    dispatcher prints nothing, and the process exits with the status of
    [argparse]: 2 for the usage error, 0 when help was asked for. *)
Theorem no_action_word_no_call (crew : Crew) (argv : list string) (s : State)
    (t : Termination) (s' : State) :
  length argv <> 1%nat ->
  (forall a, In a (tail argv) -> is_choice a = false) ->
  process crew argv s = Some (t, s') ->
  calls s' = calls s /\ heap s' = heap s /\
  ((t = Exited 2 /\ stdout s' = stdout s /\ stderr s' = stderr s ++ [ArgparseUsage]) \/
   (t = Exited 0 /\ stdout s' = stdout s ++ [ArgparseHelp] /\ stderr s' = stderr s)).
Proof.
  intros Hlen Hnone Hproc.
  apply Nat.eqb_neq in Hlen.
  unfold process, dunder_main, main in Hproc. rewrite Hlen in Hproc.
  destruct (parse_args (tail argv)) as [[args| |]|] eqn:Hp.
  - destruct (parsed_action_given _ _ Hp) as [Hch Hin].
    by rewrite (Hnone _ Hin) in Hch.
  - cbn in Hproc. simplify_eq. cbn [calls heap stdout stderr add_stdout].
    split; [done|]. split; [done|]. by right.
  - cbn in Hproc. simplify_eq. cbn [calls heap stdout stderr add_stderr].
    split; [done|]. split; [done|]. by left.
  - done.
Qed.

Lemma no_action_word_no_call_witness :
  exists s',
    process (quiet_crew "done") ["example_main.py"; "debate"; "--motion"; "Cats"]
      (initial_state 2025) = Some (Exited 2, s') /\
    calls s' = [] /\ stdout s' = [].
Proof.
  assert (process (quiet_crew "done") ["example_main.py"; "debate"; "--motion"; "Cats"]
            (initial_state 2025)
          = Some (Exited 2, mkState ∅ 2025 [] [ArgparseUsage] [])) as Hproc
    by (vm_compute; reflexivity).
  assert (length ["example_main.py"; "debate"; "--motion"; "Cats"] <> 1%nat) as Hlen
    by (cbn; lia).
  assert (forall a, In a (tail ["example_main.py"; "debate"; "--motion"; "Cats"]) ->
                    is_choice a = false) as Hnone
    by (intros a [<-|[<-|[<-|[]]]]; reflexivity).
  destruct (no_action_word_no_call _ _ _ _ _ Hlen Hnone Hproc) as (Hcalls & _ & _).
  eexists. split; [exact Hproc|]. split; [exact Hcalls|reflexivity].
Defined.

(** ** A crew that cannot be built *)

Lemma cli_result_no_crew (crew : Crew) (args : Namespace) (d : dict) (e : Exc) :
  is_choice (action args) = true ->
  debate_crew crew = Some e ->
  cli_result crew args d = Raise e.
Proof.
  intros Hch Hc. unfold cli_result, outcome. rewrite Hc.
  destruct (is_choice_cases _ Hch) as [Ha|[Ha|[Ha|Ha]]]; rewrite Ha; reflexivity.
Qed.

(** X14: when [Debate().crew()] itself raises an [Exception], every action
    reports it exactly like a failure of its delegated operation: the
    operation's error line and the fatal-error line on standard output, exit
    status 1, and no delegated operation is called. *)
Theorem crew_construction_failure (crew : Crew) (argv : list string)
    (args : Namespace) (s : State) (e : Exc) :
  parse_args (tail argv) = Some (Parsed args) ->
  replay_without_task args = false ->
  debate_crew crew = Some e ->
  is_Exception e = true ->
  exists s',
    process crew argv s = Some (Exited 1, s') /\
    calls s' = calls s /\
    stdout s' = stdout s ++ cli_header args (cli_inputs (year s) args) ++
                [Text (cli_prefix args +:+ exc_str e);
                 Text ("❌ Fatal error: " +:+ exc_str e)] /\
    stderr s' = stderr s.
Proof.
  intros Hp Hrep Hc He.
  pose proof (cli_result_no_crew crew args (cli_inputs (year s) args) e
                (parsed_action _ _ Hp) Hc) as Hres.
  destruct (process_dispatch crew argv args s Hp Hrep) as (h' & Hrun).
  cbv zeta in Hrun. rewrite Hres in Hrun.
  rewrite (cli_output_raise _ _ _ _ (parsed_action _ _ Hp) Hres) in Hrun.
  destruct (handled_Exception e He) as [_ Hl]. rewrite Hl, He in Hrun.
  unfold is_Exception in He. unfold crew_calls in Hrun. rewrite Hc in Hrun.
  destruct (exc_class e); try done.
  eexists. split; [exact Hrun|]. cbn [calls stdout stderr].
  rewrite app_nil_r, <- !app_assoc. done.
Qed.

Lemma crew_construction_failure_witness :
  exists s',
    process (mkCrew (Some (mkExc StdException "agents.yaml not found"))
                    (fun d => (d, Ok "")) (fun _ _ d => (d, Ok tt))
                    (fun _ => Ok "") (fun _ _ d => (d, Ok "")))
      ["example_main.py"; "run"] (initial_state 2025) = Some (Exited 1, s') /\
    calls s' = [] /\
    last (stdout s') = Some (Text "❌ Fatal error: agents.yaml not found").
Proof.
  destruct (crew_construction_failure
              (mkCrew (Some (mkExc StdException "agents.yaml not found"))
                      (fun d => (d, Ok "")) (fun _ _ d => (d, Ok tt))
                      (fun _ => Ok "") (fun _ _ d => (d, Ok "")))
              ["example_main.py"; "run"]
              (mkNamespace "run" None 5 "training_results.json"
                           "openai/gpt-4o-mini" None)
              (initial_state 2025) (mkExc StdException "agents.yaml not found"))
    as (s' & Hrun & Hcalls & Hout & _).
  - vm_compute. reflexivity.
  - reflexivity.
  - reflexivity.
  - reflexivity.
  - exists s'. split; [exact Hrun|]. split; [exact Hcalls|].
    rewrite Hout. reflexivity.
Defined.

(** ** [replay] called directly *)

(** X15: [replay] itself does not check its argument; the check for a
    missing task id is in [main] alone.  Called directly with any value, the
    empty string and [None] included, it prints its header with the value
    and hands the value to the delegated replay operation. *)
Theorem replay_does_not_validate (crew : Crew) (task : pyval) (s : State) :
  exists r s' more,
    replay crew task s = (r, s') /\
    calls s' = calls s ++ crew_calls crew (CallReplay task) /\
    stdout s' = stdout s ++
                [Text ("Replaying crew execution from task: " +:+ py_str task);
                 Text (str_repeat "-" 50)] ++ more /\
    stderr s' = stderr s /\
    r = finish (outcome crew (crew_replay crew task)).
Proof.
  rewrite replay_spec. eexists _, _, _. split; [reflexivity|].
  cbn [calls stdout stderr]. unfold replay_output. done.
Qed.
